(** * Productive new editors: a shallow embedding of [productive_new_editors.py]

    The script prints a TSV report of the users who registered in a time
    span, flagging those who made at least [n] content edits that were not
    reverted within 48 hours, during the first [t] days after registration.

    Layout of this development:
    - [Py]: the Python builtins the script relies on ([str.replace] with a
      one-character pattern, [str.join], [str.split], [str] of an integer,
      of a boolean and of a byte string);
    - [escape], [DAY_SECONDS]: the module-level definitions of the script;
    - [Environment]: the interface of what the script imports ([mw.database],
      [mw.Timestamp], [mw.lib.reverts], [time.time]);
    - [run] and its two loops, written in a small state-and-exception monad,
      on a standard output that can encode every line, and [run_io], the
      same on any standard output;
    - [main], given what [docopt] does with the command line;
    - [RevertDetector]: the revert detector as the specification describes it;
    - the theorems. *)

From Stdlib Require Import ZArith QArith Qabs List String Ascii Bool Lia.
From Stdlib Require Import DecimalString.
From Stdlib Require DecimalPos DecimalZ.
Import ListNotations.

Local Open Scope string_scope.
Local Open Scope Z_scope.

(** ** Python builtins *)

Module Py.

(** Python text ([str]) is represented by its UTF-8 encoding and a byte
    string ([bytes]) by its bytes, both as a Rocq [string].  The characters
    the script looks for (tab, newline) are single bytes that never occur
    inside a multi-byte UTF-8 sequence, so replacing and splitting on the
    encoding is replacing and splitting on the text. *)

Definition TAB : ascii := "009"%char.
Definition NEWLINE : ascii := "010"%char.

(** [string.replace(old, new)] for a pattern [old] of one character. *)
Fixpoint replace (old : ascii) (new : string) (s : string) : string :=
  match s with
  | EmptyString => EmptyString
  | String c s' =>
      if Ascii.eqb c old then new ++ replace old new s'
      else String c (replace old new s')
  end.

(** [sep.join(fields)]. *)
Definition join (sep : string) (fields : list string) : string :=
  String.concat sep fields.

(** [line.split(sep)] for a separator of one character. *)
Fixpoint split (sep : ascii) (s : string) : list string :=
  match s with
  | EmptyString => [EmptyString]
  | String c s' =>
      if Ascii.eqb c sep then EmptyString :: split sep s'
      else match split sep s' with
           | [] => [String c EmptyString]
           | f :: fs => String c f :: fs
           end
  end.

(** [str(i)] for an integer [i]. *)
Definition str_int (i : Z) : string :=
  NilZero.string_of_int (Z.to_int i).

(** [str(b)] for a boolean [b]. *)
Definition str_bool (b : bool) : string :=
  if b then "True" else "False".

(** Well-formed UTF-8 (RFC 3629), which is what the strict decoder of
    [str(b, 'utf-8')] accepts: no overlong form, no surrogate, nothing above
    U+10FFFF, no truncated sequence. *)
Definition between (lo hi : N) (c : ascii) : bool :=
  (N.leb lo (N_of_ascii c) && N.leb (N_of_ascii c) hi)%bool.

Definition continuation : ascii -> bool := between 128 191.

Fixpoint utf8_valid (s : string) : bool :=
  match s with
  | EmptyString => true
  | String c0 s1 =>
      if between 0 127 c0 then utf8_valid s1
      else if between 194 223 c0 then
        match s1 with
        | String c1 s2 => continuation c1 && utf8_valid s2
        | _ => false
        end
      else if between 224 239 c0 then
        match s1 with
        | String c1 (String c2 s3) =>
            (if between 224 224 c0 then between 160 191 c1
             else if between 237 237 c0 then between 128 159 c1
             else continuation c1)
            && continuation c2 && utf8_valid s3
        | _ => false
        end
      else if between 240 244 c0 then
        match s1 with
        | String c1 (String c2 (String c3 s4)) =>
            (if between 240 240 c0 then between 144 191 c1
             else if between 244 244 c0 then between 128 143 c1
             else continuation c1)
            && continuation c2 && continuation c3 && utf8_valid s4
        | _ => false
        end
      else false
  end%bool.

End Py.

(** ** Module-level definitions of the script *)

(** Number of seconds in a day. *)
Definition DAY_SECONDS : Z := 60 * 60 * 24.

(** Escapes a string for inclusion in a TSV file:
    [string.replace("\t", "\\t").replace("\n", "\\n")]. *)
Definition escape (s : string) : string :=
  Py.replace Py.NEWLINE "\n" (Py.replace Py.TAB "\t" s).

(** The spec's wording of the escaping, character by character: a tab becomes
    backslash-t, a newline becomes backslash-n, anything else is kept. *)
Definition escape_char (c : ascii) : string :=
  if Ascii.eqb c Py.TAB then "\t"
  else if Ascii.eqb c Py.NEWLINE then "\n"
  else String c EmptyString.

Fixpoint escape_spec (s : string) : string :=
  match s with
  | EmptyString => EmptyString
  | String c s' => escape_char c ++ escape_spec s'
  end.

(** [occurs c s]: the character [c] occurs in [s]. *)
Fixpoint occurs (c : ascii) (s : string) : bool :=
  match s with
  | EmptyString => false
  | String c' s' => Ascii.eqb c' c || occurs c s'
  end.

(** ** Rows of the database *)

(** A row of [db.users.query]: the columns the script reads.  A column value
    is a byte string; [user_registration] may be NULL ([None]). *)
Record user_row := {
  user_id : Z;
  user_name : string;
  user_registration : option string
}.

(** A row of [db.revisions.query(..., include_page=True)]: a revision joined
    with its page. *)
Record rev_row := {
  rev_id : Z;
  rev_user : Z;
  rev_timestamp : string;
  page_id : Z;
  page_namespace : Z
}.

(** ** What the script imports

    [mw.database], [mw.Timestamp], [mw.lib.reverts] and [time.time] are not
    part of the script: they are an interface here, and every theorem holds
    for each of its implementations.
    - [Timestamp v] is the Unix time of the timestamp built from the column
      value [v], or [None] when the constructor raises;
    - [revisions_query db user before] are the revisions of [user], with an
      optional upper bound on their timestamp;
    - [check_row db rev_row radius before] is the revert found for a
      revision, or [None];
    - [time_time k] is what the [k]-th call of [time.time()] returns, the
      floating-point reading taken as the rational it denotes;
    - [float_sub x i] is [x - i] for a float [x] and an integer [i] as
      Python computes it: the integer is converted to a float and the
      difference is rounded to binary64; the result is taken as the
      rational it denotes;
    - [stdout_encodes line] tells whether the encoding of [sys.stdout] can
      encode the text [line], that is whether [print(line)] returns rather
      than raises [UnicodeEncodeError]. *)
Class Environment := {
  DB : Type;
  Revert : Type;
  users_query : DB -> Z -> Z -> list user_row;
  revisions_query : DB -> Z -> option Z -> list rev_row;
  check_row : DB -> rev_row -> Z -> Z -> option Revert;
  Timestamp : option string -> option Z;
  time_time : nat -> Q;
  float_sub : Q -> Z -> Q;
  stdout_encodes : string -> bool
}.

(** ** State and exceptions *)

Inductive exn : Type :=
| TimestampError      (* raised by the [Timestamp] constructor *)
| UnicodeDecodeError  (* [str(b, 'utf-8')] on bytes that are not UTF-8 *)
| TypeError           (* [str(None, 'utf-8')] *)
| UnicodeEncodeError. (* [print] of a line the standard output cannot encode *)

Inductive outcome (A : Type) : Type :=
| Returns (a : A)
| Raises (e : exn).
Arguments Returns {A} a.
Arguments Raises {A} e.

(** One consultation of the revert detector: the revision, the radius and the
    deadline it was called with. *)
Record detector_call := {
  call_rev : rev_row;
  call_radius : Z;
  call_before : Z
}.

(** What the run has done so far: the lines printed, the calls made to the
    revert detector (oldest first; kept to state which revisions were
    evaluated), and how many times the clock was read. *)
Record world := {
  stdout : list string;
  detector_calls : list detector_call;
  clock_reads : nat
}.

Definition world0 : world :=
  {| stdout := []; detector_calls := []; clock_reads := 0 |}.

Definition M (A : Type) : Type := world -> world * outcome A.

Definition ret {A} (a : A) : M A := fun w => (w, Returns a).

Definition raise {A} (e : exn) : M A := fun w => (w, Raises e).

Definition bind {A B} (m : M A) (k : A -> M B) : M B :=
  fun w =>
    match m w with
    | (w', Returns a) => k a w'
    | (w', Raises e) => (w', Raises e)
    end.

Notation "x <- m ;; k" := (bind m (fun x => k))
  (at level 61, m at next level, right associativity).
Notation "m ;;; k" := (bind m (fun _ => k))
  (at level 61, right associativity).

(** [print(line)] on a standard output that can encode every line, as one
    in UTF-8 can; [print_encoded] below is [print] for any standard
    output. *)
Definition print (line : string) : M unit :=
  fun w => ({| stdout := stdout w ++ [line];
               detector_calls := detector_calls w;
               clock_reads := clock_reads w |}, Returns tt).

(** [str(b, 'utf-8')]. *)
Definition str_utf8 (b : option string) : M string :=
  match b with
  | None => raise TypeError
  | Some b => if Py.utf8_valid b then ret b else raise UnicodeDecodeError
  end.

(** [for x in xs: body(x)], without [break]. *)
Fixpoint for_each {A} (xs : list A) (body : A -> M unit) : M unit :=
  match xs with
  | [] => ret tt
  | x :: xs' => body x ;;; for_each xs' body
  end.

(** ** The script *)

Section Script.

Context {env : Environment}.

(** [Timestamp(v)], raising when the constructor does. *)
Definition new_Timestamp (v : option string) : M Z :=
  match Timestamp v with
  | Some ts => ret ts
  | None => raise TimestampError
  end.

(** [reverts.database.check_row(db, rev_row, radius=.., before=..)]. *)
Definition reverts_check_row (db : DB) (r : rev_row) (radius before : Z)
  : M (option Revert) :=
  fun w => ({| stdout := stdout w;
               detector_calls := detector_calls w ++
                 [{| call_rev := r; call_radius := radius;
                     call_before := before |}];
               clock_reads := clock_reads w |},
            Returns (check_row db r radius before)).

(** [time.time()]. *)
Definition time_now : M Q :=
  fun w => ({| stdout := stdout w;
               detector_calls := detector_calls w;
               clock_reads := S (clock_reads w) |},
            Returns (time_time (clock_reads w))).

(** [a < b] on rationals. *)
Definition Qltb (a b : Q) : bool := negb (Qle_bool b a).

(** The body of [for rev_row in revisions], lines 108-128: the new value of
    [productive_edits] and whether [break] was executed. *)
Definition rev_iteration (db : DB) (n : Z) (productive_edits : Z)
    (rev_row : rev_row) : M (Z * bool) :=
  rev_timestamp <- new_Timestamp (Some (rev_timestamp rev_row)) ;;
  if page_namespace rev_row =? 0 then
    let revert_end_of_life := rev_timestamp + DAY_SECONDS * 2 in
    revert <- reverts_check_row db rev_row 15 revert_end_of_life ;;
    match revert with
    | None =>
        let productive_edits := productive_edits + 1 in
        if productive_edits >=? n then ret (productive_edits, true)
        else ret (productive_edits, false)
    | Some _ => ret (productive_edits, false)
    end
  else ret (productive_edits, false).

(** [for rev_row in revisions: ...], lines 106-128: the final value of
    [productive_edits]. *)
Fixpoint count_productive (db : DB) (n : Z) (revisions : list rev_row)
    (productive_edits : Z) : M Z :=
  match revisions with
  | [] => ret productive_edits
  | rev_row :: revisions' =>
      step <- rev_iteration db n productive_edits rev_row ;;
      let '(productive_edits, break) := step in
      if break then ret productive_edits
      else count_productive db n revisions' productive_edits
  end.

(** The five fields of a user's row, lines 134-140, evaluated left to
    right. *)
Definition row_fields (n t : Z) (user_row : user_row)
    (user_registration_ts productive_edits : Z) : M (list string) :=
  let f_id := Py.str_int (user_id user_row) in
  name <- str_utf8 (Some (user_name user_row)) ;;
  registration <- str_utf8 (user_registration user_row) ;;
  let f_productive := Py.str_bool (productive_edits >=? n) in
  now <- time_now ;;
  let f_censored :=
    Py.str_bool (Qltb (float_sub now user_registration_ts)
                      (inject_Z ((2 + t) * DAY_SECONDS))) in
  ret [f_id; escape name; escape registration; f_productive; f_censored].

(** The body of [for user_row in users], lines 94-141. *)
Definition user_iteration (db : DB) (n t : Z) (user_row : user_row)
  : M unit :=
  user_registration <- new_Timestamp (user_registration user_row) ;;
  let revisions :=
    revisions_query db (user_id user_row)
      (Some (user_registration + DAY_SECONDS * t)) in
  productive_edits <- count_productive db n revisions 0 ;;
  fields <- row_fields n t user_row user_registration productive_edits ;;
  print (Py.join (String Py.TAB EmptyString) fields).

Definition header : list string :=
  ["user_id"; "user_name"; "user_registration"; "productive"; "censored"].

(** The script also binds [t_seconds = DAY_SECONDS*t], which it never
    reads. *)
Definition run (db : DB) (start_date end_date n t : Z) : M unit :=
  print (Py.join (String Py.TAB EmptyString) header) ;;;
  let users := users_query db start_date end_date in
  for_each users (user_iteration db n t).

(** [print(line)] for any standard output: when its encoding cannot encode
    the line, [UnicodeEncodeError] is raised and nothing is written. *)
Definition print_encoded (line : string) : M unit :=
  fun w =>
    if stdout_encodes line then print line w
    else (w, Raises UnicodeEncodeError).

(** The body of [for user_row in users], lines 94-141, for any standard
    output. *)
Definition user_iteration_io (db : DB) (n t : Z) (user_row : user_row)
  : M unit :=
  user_registration <- new_Timestamp (user_registration user_row) ;;
  let revisions :=
    revisions_query db (user_id user_row)
      (Some (user_registration + DAY_SECONDS * t)) in
  productive_edits <- count_productive db n revisions 0 ;;
  fields <- row_fields n t user_row user_registration productive_edits ;;
  print_encoded (Py.join (String Py.TAB EmptyString) fields).

(** [run], lines 72-141, for any standard output. *)
Definition run_io (db : DB) (start_date end_date n t : Z) : M unit :=
  print_encoded (Py.join (String Py.TAB EmptyString) header) ;;;
  let users := users_query db start_date end_date in
  for_each users (user_iteration_io db n t).

End Script.

(** ** The revert detector of the specification *)

Module RevertDetector.

(** The code of [reverts.database.check_row] is not part of the script;
    this module follows section 4.1 of the specification. *)

(** Modelled from the spec: a revision, section 3; [content_state] is the
    "opaque comparable value representing the page content after this
    edit". *)
Record Revision := {
  revision_id : Z;
  page_id : Z;
  page_namespace : Z;
  timestamp : Z;
  author_id : Z;
  content_state : option Z   (* [None]: missing or malformed *)
}.

(** Modelled from the spec: what the detector returns for a revert. *)
Record RevertRecord := {
  reverting_revision : Revision;
  reverted_revisions : list Revision;
  reverted_to : Revision
}.

(** Modelled from the spec: the part of the window that is walked, "at most
    [radius] revisions or until [deadline] is exceeded, whichever comes
    first". *)
Fixpoint examined (window : list Revision) (radius : nat) (deadline : Z)
  : list Revision :=
  match radius, window with
  | S radius', R :: window' =>
      if timestamp R <=? deadline
      then R :: examined window' radius' deadline
      else []
  | _, _ => []
  end.

(** Modelled from the spec: two revisions have the same content state.  A
    missing or malformed state cannot be compared and matches nothing, which
    counts toward not reverted. *)
Definition same_state (a R : Revision) : bool :=
  match content_state a, content_state R with
  | Some x, Some y => x =? y
  | _, _ => false
  end.

(** Modelled from the spec: the walk over the examined revisions.  [R] is
    a revert when its content state "exactly matches a content-state that
    existed strictly before the candidate's edit"; the first such [R] is
    returned, with the revisions it undoes ([undone]: the candidate and
    what was walked over since) and the earlier revision whose state it
    restores.  The specification does not bound how far back the earlier
    states go: [ancestors], the revisions before the candidate, most recent
    first, is an input. *)
Fixpoint walk (ancestors undone window : list Revision)
  : option RevertRecord :=
  match window with
  | [] => None
  | R :: window' =>
      match find (fun a => same_state a R) ancestors with
      | Some a =>
          Some {| reverting_revision := R;
                  reverted_revisions := undone;
                  reverted_to := a |}
      | None => walk ancestors (undone ++ [R]) window'
      end
  end.

(** Modelled from the spec: the revert detector, [is_reverted(candidate,
    window, radius, deadline) -> RevertRecord | null]; the code of
    [reverts.database.check_row] is what is missing. *)
Definition is_reverted (ancestors : list Revision) (candidate : Revision)
    (window : list Revision) (radius : Z) (deadline : Z)
  : option RevertRecord :=
  walk ancestors [candidate] (examined window (Z.to_nat radius) deadline).

End RevertDetector.

(** ** Notions used to state the properties *)

(** The world after further calls to the revert detector. *)
Definition logged (w : world) (calls : list detector_call) : world :=
  {| stdout := stdout w;
     detector_calls := detector_calls w ++ calls;
     clock_reads := clock_reads w |}.

(** The [k]-th tab-delimited field of a printed line, counting from 0. *)
Definition field (k : nat) (line : string) : option string :=
  nth_error (Py.split Py.TAB line) k.

(** The lines printed by a run, each split into its fields. *)
Definition printed_fields (result : world * outcome unit)
  : list (list string) :=
  map (Py.split Py.TAB) (stdout (fst result)).

Section Notions.

Context {env : Environment}.

(** The timestamp of the revision can be built. *)
Definition parses (r : rev_row) : bool :=
  match Timestamp (Some (rev_timestamp r)) with
  | Some _ => true
  | None => false
  end.

(** The revision's timestamp is before [bound]. *)
Definition before (bound : Z) (r : rev_row) : bool :=
  match Timestamp (Some (rev_timestamp r)) with
  | Some ts => ts <? bound
  | None => false
  end.

(** The revert check for the revision, with radius 15 and the revision's
    timestamp plus 48 hours as deadline, returns null. *)
Definition not_reverted (db : DB) (r : rev_row) : bool :=
  match Timestamp (Some (rev_timestamp r)) with
  | Some ts =>
      match check_row db r 15 (ts + 48 * 3600) with
      | None => true
      | Some _ => false
      end
  | None => false
  end.

(** A productive edit: a content edit that is not reverted. *)
Definition productive_edit (db : DB) (r : rev_row) : bool :=
  (page_namespace r =? 0) && not_reverted db r.

(** The three conditions for a revision to count, for a user registered at
    [registration] and a window of [t] days. *)
Definition counts (db : DB) (registration t : Z) (r : rev_row) : bool :=
  (page_namespace r =? 0)
  && before (registration + t * 86400) r
  && not_reverted db r.

(** The number of productive edits among [revisions]. *)
Definition productive_edits_in (db : DB) (revisions : list rev_row) : Z :=
  Z.of_nat (List.length (filter (productive_edit db) revisions)).

(** The call the revert detector is to receive for the revision [r] of
    timestamp [ts]: radius 15, deadline 48 hours later. *)
Definition call_for (r : rev_row) (ts : Z) : detector_call :=
  {| call_rev := r; call_radius := 15; call_before := ts + 48 * 3600 |}.

(** The calls to the revert detector that evaluating [revisions] in full
    makes: one for each content revision, in order. *)
Definition evaluation (revisions : list rev_row) : list detector_call :=
  flat_map
    (fun r =>
       match Timestamp (Some (rev_timestamp r)) with
       | Some ts => if page_namespace r =? 0 then [call_for r ts] else []
       | None => []
       end)
    revisions.

(** The censoring flag as the script computes it, for a window of [t] days
    and a user registered at [ts], when the clock reads [now]. *)
Definition censored_flag (t : Z) (now : Q) (ts : Z) : bool :=
  Qltb (float_sub now ts) (inject_Z ((2 + t) * DAY_SECONDS)).

(** The revisions the script fetches for a user. *)
Definition fetched (db : DB) (t : Z) (u : user_row) : list rev_row :=
  match Timestamp (user_registration u) with
  | Some registration =>
      revisions_query db (user_id u) (Some (registration + DAY_SECONDS * t))
  | None => []
  end.

(** A user whose row can be computed: the registration timestamp can be
    built, so can the timestamp of each revision fetched, and the name and
    the registration are UTF-8. *)
Definition well_formed (db : DB) (t : Z) (u : user_row) : bool :=
  match Timestamp (user_registration u), user_registration u with
  | Some _, Some registration =>
      forallb parses (fetched db t u)
      && Py.utf8_valid (user_name u)
      && Py.utf8_valid registration
  | _, _ => false
  end.

(** The line printed for a user, given the text of the registration and
    of the two booleans. *)
Definition row_line (u : user_row) (registration productive censored : string)
  : string :=
  Py.join (String Py.TAB EmptyString)
    [Py.str_int (user_id u); escape (user_name u); escape registration;
     productive; censored].

(** [line] is a row for the user [u]: five fields joined by tabs, the
    identifier, the escaped name, the escaped registration and two
    booleans, each the literal text True or False. *)
Definition row_of (u : user_row) (line : string) : Prop :=
  exists registration productive censored,
    user_registration u = Some registration /\
    (productive = "True" \/ productive = "False") /\
    (censored = "True" \/ censored = "False") /\
    line = row_line u registration productive censored.



(** The reading the specification gives of a data-integrity error: it is
    fatal for the row of the user it occurs in and for no other row, so
    every well-formed user the data source returns has a row in what the
    run printed. *)
Definition fatal_for_that_row_only (db : DB) (start_date end_date n t : Z)
  : Prop :=
  forall u, In u (users_query db start_date end_date) ->
    well_formed db t u = true ->
    exists line,
      In line (stdout (fst (run db start_date end_date n t world0))) /\
      row_of u line.

End Notions.

(** ** A test double of the environment

    Timestamps are Unix times written in decimal, the data source is three
    in-memory tables and the clock always returns the same reading. *)

(** Rounding of a non-negative rational to the nearest integer, ties to
    even. *)
Definition round_half_even (x : Q) : Z :=
  let a := Qnum x in
  let b := Zpos (Qden x) in
  let q := a / b in
  let r2 := 2 * (a mod b) in
  if r2 <? b then q
  else if b <? r2 then q + 1
  else if Z.even q then q else q + 1.

(** The integer [e] with [2^e <= x < 2^(e+1)], for a positive rational. *)
Definition floor_log2 (x : Q) : Z :=
  let k := Z.log2 (Qnum x) - Z.log2 (Zpos (Qden x)) in
  if Qle_bool (Qpower 2 k) x then k else k - 1.

(** The binary64 value nearest to a rational, ties to even: 53 significant
    bits, and multiples of [2^-1074] in the subnormal range.  Overflow to
    infinity is not represented. *)
Definition binary64 (x : Q) : Q :=
  if Qeq_bool x 0 then 0%Q
  else
    let m := Qabs x in
    let ulp := Qpower 2 (Z.max (floor_log2 m - 52) (-1074)) in
    let k := inject_Z (round_half_even (m / ulp)) in
    Qred (if Qle_bool 0 x then k * ulp else - (k * ulp))%Q.

(** [x - i] in binary64, for a float [x] and an integer [i]. *)
Definition binary64_sub (x : Q) (i : Z) : Q :=
  binary64 (x - binary64 (inject_Z i)).

(** Text made of ASCII characters only. *)
Fixpoint is_ascii (s : string) : bool :=
  match s with
  | EmptyString => true
  | String c s' => Py.between 0 127 c && is_ascii s'
  end.

Record demo_db := {
  demo_users : list user_row;
  demo_revisions : list rev_row;
  demo_reverted : list Z   (* the identifiers of the reverted revisions *)
}.

Definition demo_Timestamp (v : option string) : option Z :=
  match v with
  | Some s => option_map Z.of_int (NilZero.int_of_string s)
  | None => None
  end.

Definition demo_revisions_query (db : demo_db) (user : Z) (bound : option Z)
  : list rev_row :=
  filter
    (fun r =>
       (rev_user r =? user)
       && match bound with
          | None => true
          | Some b =>
              match demo_Timestamp (Some (rev_timestamp r)) with
              | Some ts => ts <? b
              | None => false
              end
          end)
    (demo_revisions db).

Definition demo_env (now : Q) : Environment := {|
  DB := demo_db;
  Revert := unit;
  users_query := fun db _ _ => demo_users db;
  revisions_query := demo_revisions_query;
  check_row := fun db r _ _ =>
    if existsb (Z.eqb (rev_id r)) (demo_reverted db) then Some tt else None;
  Timestamp := demo_Timestamp;
  time_time := fun _ => now;
  float_sub := binary64_sub;
  stdout_encodes := fun _ => true
|}.

(** The same with a standard output in ASCII. *)
Definition ascii_env (now : Q) : Environment := {|
  DB := demo_db;
  Revert := unit;
  users_query := fun db _ _ => demo_users db;
  revisions_query := demo_revisions_query;
  check_row := fun db r _ _ =>
    if existsb (Z.eqb (rev_id r)) (demo_reverted db) then Some tt else None;
  Timestamp := demo_Timestamp;
  time_time := fun _ => now;
  float_sub := binary64_sub;
  stdout_encodes := is_ascii
|}.

(** A content edit by user 7 at time [ts], and an edit to a talk page. *)
Definition edit (id : Z) (ts : string) : rev_row :=
  {| rev_id := id; rev_user := 7; rev_timestamp := ts;
     page_id := 1; page_namespace := 0 |}.

Definition talk_edit (id : Z) (ts : string) : rev_row :=
  {| rev_id := id; rev_user := 7; rev_timestamp := ts;
     page_id := 2; page_namespace := 1 |}.

(** User 7 registered at time 1000; user 8, whose registration cannot be
    read; user 9, registered at time 2000, who never edited. *)
Definition alice : user_row :=
  {| user_id := 7;
     user_name := String "A" (String Py.TAB "lice");
     user_registration := Some "1000" |}.

Definition mallory : user_row :=
  {| user_id := 8; user_name := "Mallory";
     user_registration := Some "yesterday" |}.

Definition bob : user_row :=
  {| user_id := 9; user_name := "Bob"; user_registration := Some "2000" |}.

(** Three content edits in the first hours, none reverted. *)
Definition three_edits : demo_db :=
  {| demo_users := [alice];
     demo_revisions := [edit 1 "4600"; edit 2 "8200"; edit 3 "11800"];
     demo_reverted := [] |}.

(** Only edits outside the content namespace, one of them reverted. *)
Definition talk_only : demo_db :=
  {| demo_users := [alice];
     demo_revisions := [talk_edit 1 "4600"; talk_edit 2 "8200"];
     demo_reverted := [2] |}.

(** A user whose registration cannot be read, between two who are fine. *)
Definition one_bad_row : demo_db :=
  {| demo_users := [alice; mallory; bob];
     demo_revisions := [edit 1 "4600"];
     demo_reverted := [] |}.

(** A page history for the revert detector: the candidate changed state 1
    into state 2, a later revision made it state 3, and the one after
    restored state 1. *)
Module HistoryDemo.

Import RevertDetector.

Definition revision (id ts state : Z) : Revision :=
  {| revision_id := id; page_id := 1; page_namespace := 0;
     timestamp := ts; author_id := 7; content_state := Some state |}.

Definition ancestors : list Revision := [revision 1 0 1].
Definition candidate : Revision := revision 2 100 2.
Definition window : list Revision := [revision 3 200 3; revision 4 300 1].

End HistoryDemo.

(** ** The entry point *)

(** What [docopt.docopt(__doc__)] returns, for the keys [main] reads: the two
    positional arguments and the options that take a value, each a string
    or [None], and the [--debug] flag. *)
Record arguments := {
  arg_start_date : option string;      (* args['<start_date>'] *)
  arg_end_date : option string;        (* args['<end_date>'] *)
  arg_n : option string;               (* args['-n'] *)
  arg_t : option string;               (* args['-t'] *)
  arg_defaults_file : option string;   (* args['--defaults-file'] *)
  arg_user : option string;            (* args['--user'] *)
  arg_host : option string;            (* args['--host'] *)
  arg_db : option string;              (* args['--db'] *)
  arg_debug : bool                     (* args['--debug'] *)
}.

(** What [docopt.docopt(__doc__, version="0.0.1")] does on line 44: it
    returns the parsed arguments, or it exits; for [--help] and [--version]
    it prints the help or the version to the standard output first, for a
    command line that does not match the usage it prints nothing there. *)
Inductive docopt_result : Type :=
| DocoptExit (printed : list string)
| DocoptArgs (args : arguments).

(** What [main] can raise: the exit of [docopt], the connection to the
    database failing, [int] rejecting an argument, or what the [Timestamp]
    constructor and [run] raise. *)
Inductive main_exn : Type :=
| SystemExit
| FromParamsError
| IntError
| ScriptError (e : exn).

Inductive main_outcome : Type :=
| MainReturns
| MainRaises (e : main_exn).

(** The keyword arguments [main] connects with, lines 55-61, in insertion
    order: [read_default_file] is there only when a defaults file was
    given. *)
Definition db_kwargs (args : arguments) : list (string * option string) :=
  [("user", arg_user args); ("host", arg_host args); ("db", arg_db args)]
  ++ match arg_defaults_file args with
     | Some path => [("read_default_file", Some path)]
     | None => []
     end.

Section Main.

Context {env : Environment}.

(** [database.DB.from_params], called with the keyword arguments, and the
    builtin [int(x)]; [None] when they raise. *)
Variable from_params : list (string * option string) -> option DB.
Variable int : option string -> option Z.

(** [main], lines 43-70, given what [docopt] does with the command line.
    The call to [logging.basicConfig] only configures the log stream and is
    left out.  The arguments of [run] are evaluated left to right before
    [run] is entered. *)
Definition main (parsed : docopt_result) (w : world)
  : world * main_outcome :=
  match parsed with
  | DocoptExit printed =>
      ({| stdout := stdout w ++ printed;
          detector_calls := detector_calls w;
          clock_reads := clock_reads w |}, MainRaises SystemExit)
  | DocoptArgs args =>
  match from_params (db_kwargs args) with
  | None => (w, MainRaises FromParamsError)
  | Some db =>
      match Timestamp (arg_start_date args) with
      | None => (w, MainRaises (ScriptError TimestampError))
      | Some start_date =>
          match Timestamp (arg_end_date args) with
          | None => (w, MainRaises (ScriptError TimestampError))
          | Some end_date =>
              match int (arg_n args) with
              | None => (w, MainRaises IntError)
              | Some n =>
                  match int (arg_t args) with
                  | None => (w, MainRaises IntError)
                  | Some t =>
                      match run_io db start_date end_date n t w with
                      | (w', Returns _) => (w', MainReturns)
                      | (w', Raises e) => (w', MainRaises (ScriptError e))
                      end
                  end
              end
          end
      end
  end
  end.

End Main.

(** ** Further notions and test data *)

(** The number of occurrences of a character in a string. *)
Fixpoint count_char (c : ascii) (s : string) : nat :=
  match s with
  | EmptyString => 0%nat
  | String c' s' =>
      ((if Ascii.eqb c' c then 1 else 0) + count_char c s')%nat
  end.


(** Alice with a name that is not UTF-8. *)
Definition alice_latin1 : user_row :=
  {| user_id := 7;
     user_name := String "255"%char "lice";
     user_registration := Some "1000" |}.

Definition bad_name : demo_db :=
  {| demo_users := [alice_latin1];
     demo_revisions := [edit 1 "4600"];
     demo_reverted := [] |}.

(** A test double of the command line conversions: the connection always
    gives the database [three_edits] and integers are written in decimal. *)
Definition demo_from_params (kwargs : list (string * option string))
  : option demo_db := Some three_edits.

Definition demo_int (v : option string) : option Z := demo_Timestamp v.

Definition demo_arguments (n : string) : arguments :=
  {| arg_start_date := Some "0"; arg_end_date := Some "5000";
     arg_n := Some n; arg_t := Some "1";
     arg_defaults_file := None; arg_user := Some "alice";
     arg_host := Some "localhost"; arg_db := Some "enwiki";
     arg_debug := false |}.




Definition zoe : user_row :=
  {| user_id := 11;
     user_name := String "Z" (String "111" (String "195" (String "171" "")));
     user_registration := Some "3000" |}.

Definition ascii_and_not : demo_db :=
  {| demo_users := [bob; zoe; alice];
     demo_revisions := [];
     demo_reverted := [] |}.

(** A user registered 259200 seconds before time 0, who never edited. *)
Definition early : user_row :=
  {| user_id := 12; user_name := "Early";
     user_registration := Some "-259200" |}.

Definition early_only : demo_db :=
  {| demo_users := [early]; demo_revisions := []; demo_reverted := [] |}.

(** A user with Alice's identifier whose name has a backslash and a t where
    hers has a tab. *)
Definition alice_backslash : user_row :=
  {| user_id := 7; user_name := "A\tlice";
     user_registration := Some "1000" |}.

(** * Properties *)

(** ** The script on the test double *)

Example escape_tab_newline :
  escape (String "a" (String Py.TAB (String "b" (String Py.NEWLINE "c"))))
  = "a\tb\nc".
Proof. reflexivity. Qed.

(** Three content edits in the hours after registration, none reverted,
    [n = 1]: productive. *)
Example run_three_edits :
  printed_fields
    (@run (demo_env (inject_Z 300000)) three_edits 0 5000 1 1 world0)
  = [["user_id"; "user_name"; "user_registration"; "productive"; "censored"];
     ["7"; "A\tlice"; "1000"; "True"; "False"]].
Proof. reflexivity. Qed.

(** The only content edit is reverted, [n = 1]: not productive. *)
Example run_reverted_edit :
  printed_fields
    (@run (demo_env (inject_Z 300000))
       {| demo_users := [alice];
          demo_revisions := [edit 1 "4600"];
          demo_reverted := [1] |}
       0 5000 1 1 world0)
  = [["user_id"; "user_name"; "user_registration"; "productive"; "censored"];
     ["7"; "A\tlice"; "1000"; "False"; "False"]].
Proof. reflexivity. Qed.

(** With [n = 0] every user is productive, and the scan goes on to the
    first productive edit. *)
Example run_threshold_zero :
  @count_productive (demo_env (inject_Z 300000)) three_edits 0
    [talk_edit 1 "4600"; edit 2 "8200"; edit 3 "11800"] 0 world0
  = (logged world0 [call_for (edit 2 "8200") 8200], Returns 1).
Proof. reflexivity. Qed.

(** A registration that cannot be read ends the run. *)
Example run_one_bad_row :
  printed_fields
    (@run (demo_env (inject_Z 300000)) one_bad_row 0 5000 1 1 world0)
  = [["user_id"; "user_name"; "user_registration"; "productive"; "censored"];
     ["7"; "A\tlice"; "1000"; "True"; "False"]]
  /\ snd (@run (demo_env (inject_Z 300000)) one_bad_row 0 5000 1 1 world0)
     = Raises TimestampError.
Proof. split; reflexivity. Qed.

(** The clock reads [-2^-60] and the user registered at time -259200: the
    exact difference is under three days, the difference in binary64 is
    three days, and the user is not censored for [t = 1]. *)
Example run_rounded_difference :
  printed_fields
    (@run (demo_env (- (1 # 1152921504606846976))) early_only
       (-300000) 0 1 1 world0)
  = [["user_id"; "user_name"; "user_registration"; "productive"; "censored"];
     ["12"; "Early"; "-259200"; "False"; "False"]]
  /\ (- (1 # 1152921504606846976) - inject_Z (-259200)
      < inject_Z (3 * 86400))%Q.
Proof. split; reflexivity. Qed.

(** On a standard output in ASCII the run ends at the first name that is not
    ASCII, after the clock was read for the row that is not printed. *)
Example run_io_ascii_stdout :
  printed_fields
    (@run_io (ascii_env (inject_Z 300000)) ascii_and_not 0 5000 1 1 world0)
  = [["user_id"; "user_name"; "user_registration"; "productive"; "censored"];
     ["9"; "Bob"; "2000"; "False"; "False"]]
  /\ snd (@run_io (ascii_env (inject_Z 300000)) ascii_and_not 0 5000 1 1
            world0) = Raises UnicodeEncodeError
  /\ clock_reads
       (fst (@run_io (ascii_env (inject_Z 300000)) ascii_and_not 0 5000 1 1
               world0)) = 2%nat.
Proof. repeat split; reflexivity. Qed.

(** [main] with a threshold that is not a number: nothing is printed. *)
Example main_bad_threshold :
  @main (demo_env (inject_Z 300000)) demo_from_params demo_int
    (DocoptArgs (demo_arguments "many")) world0
  = (world0, MainRaises IntError).
Proof. reflexivity. Qed.

(** ** Strings *)

Lemma occurs_app c s1 s2 :
  occurs c (s1 ++ s2) = occurs c s1 || occurs c s2.
Proof.
  induction s1 as [|c1 s1 IH]; simpl; [reflexivity|].
  now rewrite IH, orb_assoc.
Qed.

Lemma replace_absent old new s :
  occurs old s = false -> Py.replace old new s = s.
Proof.
  induction s as [|c s IH]; simpl; [reflexivity|].
  intros H. apply orb_false_iff in H as [Hc Hs].
  rewrite Hc. now rewrite IH.
Qed.

Lemma occurs_replace_same old new s :
  occurs old new = false -> occurs old (Py.replace old new s) = false.
Proof.
  intros Hnew. induction s as [|c s IH]; simpl; [reflexivity|].
  destruct (Ascii.eqb c old) eqn:Hc.
  - now rewrite occurs_app, Hnew, IH.
  - simpl. now rewrite Hc, IH.
Qed.

Lemma occurs_replace_other c old new s :
  occurs c new = false -> occurs c s = false ->
  occurs c (Py.replace old new s) = false.
Proof.
  intros Hnew. induction s as [|c1 s IH]; simpl; [reflexivity|].
  intros H. apply orb_false_iff in H as [Hc Hs].
  destruct (Ascii.eqb c1 old).
  - now rewrite occurs_app, Hnew, IH.
  - simpl. now rewrite Hc, IH.
Qed.

Lemma escape_no_tab s : occurs Py.TAB (escape s) = false.
Proof.
  unfold escape. apply occurs_replace_other; [reflexivity|].
  now apply occurs_replace_same.
Qed.

Lemma escape_no_newline s : occurs Py.NEWLINE (escape s) = false.
Proof.
  unfold escape. now apply occurs_replace_same.
Qed.

Lemma escape_escape_spec s : escape s = escape_spec s.
Proof.
  unfold escape. induction s as [|c s IH]; simpl; [reflexivity|].
  unfold escape_char.
  destruct (Ascii.eqb c Py.TAB) eqn:Ht; simpl.
  - now rewrite IH.
  - destruct (Ascii.eqb c Py.NEWLINE); now rewrite IH.
Qed.

Lemma string_of_uint_no_tab d :
  occurs Py.TAB (NilEmpty.string_of_uint d) = false.
Proof.
  induction d; simpl; auto.
Qed.

Lemma str_int_no_tab i : occurs Py.TAB (Py.str_int i) = false.
Proof.
  unfold Py.str_int, NilZero.string_of_int, NilZero.string_of_uint.
  destruct (Z.to_int i) as [d|d]; destruct d; simpl;
    auto using string_of_uint_no_tab.
Qed.

Lemma str_bool_no_tab b : occurs Py.TAB (Py.str_bool b) = false.
Proof.
  destruct b; reflexivity.
Qed.

Lemma split_no_sep sep s :
  occurs sep s = false -> Py.split sep s = [s].
Proof.
  induction s as [|c s IH]; simpl; [reflexivity|].
  intros H. apply orb_false_iff in H as [Hc Hs].
  now rewrite Hc, IH.
Qed.

Lemma split_field_sep sep f rest :
  occurs sep f = false ->
  Py.split sep (f ++ String sep rest) = f :: Py.split sep rest.
Proof.
  induction f as [|c f IH]; simpl.
  - intros _. now rewrite Ascii.eqb_refl.
  - intros H. apply orb_false_iff in H as [Hc Hf].
    now rewrite Hc, IH.
Qed.

(** Splitting a joined line on the separator gives the fields back, when no
    field contains the separator. *)
Lemma split_join sep fields :
  fields <> [] ->
  Forall (fun f => occurs sep f = false) fields ->
  Py.split sep (Py.join (String sep EmptyString) fields) = fields.
Proof.
  intros Hne Hall. induction Hall as [|f fs Hf Hfs IH]; [congruence|].
  destruct fs as [|g fs].
  - simpl. now apply split_no_sep.
  - change (Py.join (String sep EmptyString) (f :: g :: fs))
      with (f ++ String sep (Py.join (String sep EmptyString) (g :: fs))).
    rewrite split_field_sep by assumption.
    rewrite IH; [reflexivity | discriminate].
Qed.

(** C10. [escape] is idempotent: escaping an escaped string changes nothing,
    because an escaped string contains neither a tab nor a newline. *)
Theorem escape_idempotent (s : string) :
  escape (escape s) = escape s /\
  occurs Py.TAB (escape s) = false /\
  occurs Py.NEWLINE (escape s) = false.
Proof.
  split; [|split; [apply escape_no_tab | apply escape_no_newline]].
  unfold escape at 1.
  rewrite (replace_absent Py.TAB) by apply escape_no_tab.
  apply replace_absent, escape_no_newline.
Qed.

(** ** The loop over a user's revisions *)

Lemma two_days : DAY_SECONDS * 2 = 48 * 3600.
Proof. reflexivity. Qed.

Lemma logged_nil w : logged w [] = w.
Proof.
  destruct w. unfold logged. simpl. now rewrite app_nil_r.
Qed.

Lemma logged_logged w calls1 calls2 :
  logged (logged w calls1) calls2 = logged w (calls1 ++ calls2).
Proof.
  unfold logged. simpl. now rewrite app_assoc.
Qed.

Section Loop.

Context {env : Environment}.
Variables (db : DB) (n : Z).

(** One iteration on a revision whose timestamp can be built. *)
Lemma rev_iteration_parsed c r ts w :
  Timestamp (Some (rev_timestamp r)) = Some ts ->
  rev_iteration db n c r w =
    if page_namespace r =? 0 then
      (logged w [call_for r ts],
       Returns match check_row db r 15 (ts + 48 * 3600) with
               | None => (c + 1, c + 1 >=? n)
               | Some _ => (c, false)
               end)
    else (w, Returns (c, false)).
Proof.
  intros Hts. unfold rev_iteration, bind, new_Timestamp. rewrite Hts.
  unfold ret. destruct (page_namespace r =? 0); [|reflexivity].
  unfold reverts_check_row. rewrite two_days.
  destruct (check_row db r 15 (ts + 48 * 3600)); [reflexivity|].
  destruct (c + 1 >=? n); reflexivity.
Qed.

(** One iteration on a revision whose timestamp cannot be built. *)
Lemma rev_iteration_unparsed c r w :
  Timestamp (Some (rev_timestamp r)) = None ->
  rev_iteration db n c r w = (w, Raises TimestampError).
Proof.
  intros Hts. unfold rev_iteration, bind, new_Timestamp. now rewrite Hts.
Qed.

Lemma count_productive_cons r revisions c w :
  count_productive db n (r :: revisions) c w =
    match rev_iteration db n c r w with
    | (w', Returns (c', true)) => (w', Returns c')
    | (w', Returns (c', false)) => count_productive db n revisions c' w'
    | (w', Raises e) => (w', Raises e)
    end.
Proof.
  simpl. unfold bind.
  destruct (rev_iteration db n c r w) as [w' [[c' [|]]|e]]; reflexivity.
Qed.

Lemma evaluation_app revs1 revs2 :
  evaluation (revs1 ++ revs2) = (evaluation revs1 ++ evaluation revs2)%list.
Proof. apply flat_map_app. Qed.

Lemma evaluation_cons r ts revisions :
  Timestamp (Some (rev_timestamp r)) = Some ts ->
  evaluation (r :: revisions) =
    ((if page_namespace r =? 0 then [call_for r ts] else [])
     ++ evaluation revisions)%list.
Proof.
  intros Hts. unfold evaluation. simpl. now rewrite Hts.
Qed.

Lemma productive_edits_in_cons r revisions :
  productive_edits_in db (r :: revisions) =
    (if productive_edit db r then 1 else 0) + productive_edits_in db revisions.
Proof.
  unfold productive_edits_in. simpl.
  destruct (productive_edit db r); simpl List.length; lia.
Qed.

Lemma productive_edits_in_nonneg revisions :
  0 <= productive_edits_in db revisions.
Proof. unfold productive_edits_in. lia. Qed.

Lemma productive_edit_parsed r ts :
  Timestamp (Some (rev_timestamp r)) = Some ts ->
  productive_edit db r =
    (page_namespace r =? 0) &&
    match check_row db r 15 (ts + 48 * 3600) with
    | None => true
    | Some _ => false
    end.
Proof.
  intros Hts. unfold productive_edit, not_reverted. now rewrite Hts.
Qed.

(** While the counter stays below [n] the loop goes on: it evaluates every
    revision of [pre] and carries on with the rest. *)
Lemma count_productive_below pre rest c w :
  forallb parses pre = true ->
  c + productive_edits_in db pre < n ->
  count_productive db n (pre ++ rest) c w =
    count_productive db n rest (c + productive_edits_in db pre)
      (logged w (evaluation pre)).
Proof.
  revert c w. induction pre as [|r pre IH]; intros c w Hp Hlt.
  - simpl. rewrite logged_nil. f_equal. unfold productive_edits_in.
    simpl. lia.
  - simpl in Hp. apply andb_true_iff in Hp as [Hr Hp].
    unfold parses in Hr.
    destruct (Timestamp (Some (rev_timestamp r))) as [ts|] eqn:Hts;
      [clear Hr | discriminate].
    rewrite productive_edits_in_cons in Hlt |- *.
    pose proof (productive_edits_in_nonneg pre) as Hpos.
    rewrite (productive_edit_parsed r ts Hts) in Hlt |- *.
    rewrite <- app_comm_cons, count_productive_cons.
    rewrite (rev_iteration_parsed c r ts w Hts).
    rewrite (evaluation_cons r ts pre Hts).
    destruct (page_namespace r =? 0); cbv [andb] in *.
    + destruct (check_row db r 15 (ts + 48 * 3600)).
      * rewrite IH by (assumption || lia).
        rewrite logged_logged. f_equal; lia.
      * replace (c + 1 >=? n) with false by lia.
        rewrite IH by (assumption || lia).
        rewrite logged_logged. f_equal; lia.
    + rewrite IH by (assumption || lia). f_equal; lia.
Qed.

(** The loop leaves the counter between its initial value and [n], when it
    starts below [n]. *)
Lemma count_productive_bound revisions c w w' c' :
  count_productive db n revisions c w = (w', Returns c') ->
  c < n -> c <= c' <= n.
Proof.
  revert c w. induction revisions as [|r revisions IH]; intros c w Hrun Hlt.
  - simpl in Hrun. unfold ret in Hrun. injection Hrun as _ <-. lia.
  - rewrite count_productive_cons in Hrun.
    destruct (Timestamp (Some (rev_timestamp r))) as [ts|] eqn:Hts.
    + rewrite (rev_iteration_parsed c r ts w Hts) in Hrun.
      destruct (page_namespace r =? 0).
      * destruct (check_row db r 15 (ts + 48 * 3600)).
        -- apply IH in Hrun; lia.
        -- destruct (c + 1 >=? n) eqn:Hge.
           ++ injection Hrun as _ <-. lia.
           ++ apply IH in Hrun; lia.
      * apply IH in Hrun; lia.
    + rewrite (rev_iteration_unparsed c r w Hts) in Hrun. discriminate.
Qed.

(** The loop only consults the revert detector: it prints nothing and does
    not read the clock. *)
Lemma count_productive_frame revisions c w :
  exists calls,
    fst (count_productive db n revisions c w) = logged w calls.
Proof.
  revert c w. induction revisions as [|r revisions IH]; intros c w.
  - exists []. simpl. now rewrite logged_nil.
  - rewrite count_productive_cons.
    destruct (Timestamp (Some (rev_timestamp r))) as [ts|] eqn:Hts.
    + rewrite (rev_iteration_parsed c r ts w Hts).
      destruct (page_namespace r =? 0).
      * destruct (check_row db r 15 (ts + 48 * 3600)).
        -- destruct (IH c (logged w [call_for r ts])) as [calls ->].
           rewrite logged_logged. eauto.
        -- destruct (c + 1 >=? n).
           ++ exists [call_for r ts]. reflexivity.
           ++ destruct (IH (c + 1) (logged w [call_for r ts]))
                as [calls ->].
              rewrite logged_logged. eauto.
      * apply IH.
    + rewrite (rev_iteration_unparsed c r w Hts).
      exists []. simpl. now rewrite logged_nil.
Qed.

(** When every timestamp can be built the loop returns, and its counter
    reaches [n] exactly when the productive edits, added to the initial
    value, do. *)
Lemma count_productive_returns revisions c w :
  forallb parses revisions = true ->
  exists calls c',
    count_productive db n revisions c w = (logged w calls, Returns c') /\
    (n <= c' <-> n <= c + productive_edits_in db revisions).
Proof.
  revert c w. induction revisions as [|r revisions IH]; intros c w Hp.
  - exists [], c. simpl. rewrite logged_nil. split; [reflexivity|].
    unfold productive_edits_in. simpl. lia.
  - simpl in Hp. apply andb_true_iff in Hp as [Hr Hp].
    unfold parses in Hr.
    destruct (Timestamp (Some (rev_timestamp r))) as [ts|] eqn:Hts;
      [clear Hr | discriminate].
    rewrite count_productive_cons, productive_edits_in_cons.
    pose proof (productive_edits_in_nonneg revisions) as Hpos.
    rewrite (rev_iteration_parsed c r ts w Hts).
    rewrite (productive_edit_parsed r ts Hts).
    destruct (page_namespace r =? 0); cbv [andb].
    + destruct (check_row db r 15 (ts + 48 * 3600)).
      * destruct (IH c (logged w [call_for r ts]) Hp)
          as (calls & c' & -> & Hc').
        rewrite logged_logged. eexists _, c'. split; [reflexivity|lia].
      * destruct (c + 1 >=? n) eqn:Hge.
        -- eexists _, (c + 1). split; [reflexivity|lia].
        -- destruct (IH (c + 1) (logged w [call_for r ts]) Hp)
             as (calls & c' & -> & Hc').
           rewrite logged_logged. eexists _, c'.
           split; [reflexivity|lia].
    + destruct (IH c w Hp) as (calls & c' & -> & Hc').
      eexists _, c'. split; [reflexivity|lia].
Qed.

End Loop.

(** ** One user *)

Lemma Qltb_lt (a b : Q) : Qltb a b = true <-> (a < b)%Q.
Proof.
  unfold Qltb. rewrite negb_true_iff. split; intros H.
  - apply Qnot_le_lt. intros Hle. apply Qle_bool_iff in Hle. congruence.
  - destruct (Qle_bool b a) eqn:Hle; [|reflexivity].
    apply Qle_bool_iff in Hle. exfalso. exact (Qlt_not_le _ _ H Hle).
Qed.

Lemma str_bool_cases b : Py.str_bool b = "True" \/ Py.str_bool b = "False".
Proof. destruct b; auto. Qed.

Section User.

Context {env : Environment}.
Variables (db : DB) (n t : Z).

(** The fields of a row are recovered by splitting it on tabs. *)
Lemma split_row_line u registration p c :
  occurs Py.TAB p = false -> occurs Py.TAB c = false ->
  Py.split Py.TAB (row_line u registration p c) =
    [Py.str_int (user_id u); escape (user_name u); escape registration;
     p; c].
Proof.
  intros Hp Hc. unfold row_line. apply split_join; [discriminate|].
  repeat constructor;
    auto using str_int_no_tab, escape_no_tab.
Qed.

(** What one iteration of the loop over the users does, once the loop over
    the user's revisions has returned. *)
Lemma user_iteration_after_count u ts registration w w1 c :
  Timestamp (user_registration u) = Some ts ->
  user_registration u = Some registration ->
  Py.utf8_valid (user_name u) = true ->
  Py.utf8_valid registration = true ->
  count_productive db n (fetched db t u) 0 w = (w1, Returns c) ->
  user_iteration db n t u w =
    ({| stdout := stdout w1 ++
          [row_line u registration (Py.str_bool (c >=? n))
             (Py.str_bool (censored_flag t (time_time (clock_reads w1)) ts))];
        detector_calls := detector_calls w1;
        clock_reads := S (clock_reads w1) |}, Returns tt).
Proof.
  intros Hts Hreg Hname Hvalid Hcount.
  unfold fetched in Hcount. rewrite Hts in Hcount.
  unfold user_iteration, bind, new_Timestamp. rewrite Hts.
  unfold ret at 1. rewrite Hcount.
  unfold row_fields, bind, str_utf8. rewrite Hname, Hreg, Hvalid.
  reflexivity.
Qed.

(** A user whose registration timestamp cannot be built: the exception is
    raised before anything is done for the user. *)
Lemma user_iteration_unparsed u w :
  Timestamp (user_registration u) = None ->
  user_iteration db n t u w = (w, Raises TimestampError).
Proof.
  intros Hts. unfold user_iteration, bind, new_Timestamp. now rewrite Hts.
Qed.

Lemma well_formed_inv u :
  well_formed db t u = true ->
  exists ts registration,
    Timestamp (user_registration u) = Some ts /\
    user_registration u = Some registration /\
    forallb parses (fetched db t u) = true /\
    Py.utf8_valid (user_name u) = true /\
    Py.utf8_valid registration = true.
Proof.
  unfold well_formed. intros H.
  destruct (Timestamp (user_registration u)) as [ts|]; [|discriminate].
  destruct (user_registration u) as [registration|]; [|discriminate].
  apply andb_true_iff in H as [H H3]. apply andb_true_iff in H as [H1 H2].
  now exists ts, registration.
Qed.

(** A well-formed user gets a row: the loop over the revisions returns
    some counter [c], and the row is printed from it. *)
Lemma user_iteration_well_formed u w :
  well_formed db t u = true ->
  exists ts registration calls c,
    Timestamp (user_registration u) = Some ts /\
    user_registration u = Some registration /\
    count_productive db n (fetched db t u) 0 w =
      (logged w calls, Returns c) /\
    (n <= c <-> n <= productive_edits_in db (fetched db t u)) /\
    user_iteration db n t u w =
      ({| stdout := stdout w ++
            [row_line u registration (Py.str_bool (c >=? n))
               (Py.str_bool (censored_flag t (time_time (clock_reads w)) ts))];
          detector_calls := detector_calls w ++ calls;
          clock_reads := S (clock_reads w) |}, Returns tt).
Proof.
  intros Hwf.
  destruct (well_formed_inv u Hwf)
    as (ts & registration & Hts & Hreg & Hp & Hname & Hvalid).
  destruct (count_productive_returns db n (fetched db t u) 0 w Hp)
    as (calls & c & Hcount & Hc).
  exists ts, registration, calls, c.
  split; [assumption|]. split; [assumption|]. split; [assumption|].
  split; [rewrite Hc; lia|].
  exact (user_iteration_after_count u ts registration w _ c
           Hts Hreg Hname Hvalid Hcount).
Qed.

End User.

(** ** Claims on the loop over a user's revisions *)

Section LoopClaims.

Context {env : Environment}.
Variables (db : DB) (n : Z).

(** Revisions outside the content namespace leave the counter and the
    world as they are. *)
Lemma count_productive_no_content revisions c w :
  forallb parses revisions = true ->
  Forall (fun r => page_namespace r <> 0) revisions ->
  count_productive db n revisions c w = (w, Returns c).
Proof.
  intros Hp Hns. induction Hns as [|r revisions Hr _ IH]; [reflexivity|].
  simpl in Hp. apply andb_true_iff in Hp as [Hts Hp]. unfold parses in Hts.
  destruct (Timestamp (Some (rev_timestamp r))) as [ts|] eqn:Ets;
    [|discriminate].
  rewrite count_productive_cons, (rev_iteration_parsed db n c r ts w Ets).
  apply Z.eqb_neq in Hr. rewrite Hr. now apply IH.
Qed.

(** C4. Each content-namespace revision the loop evaluates is passed to the
    revert detector with radius 15 and, as deadline, the revision's
    timestamp plus two days (48 hours); the iteration adds one to the
    counter when the detector returns null and leaves it unchanged
    otherwise. *)
Theorem content_revision_evaluation (c : Z) (r : rev_row) (ts : Z)
    (w : world) :
  page_namespace r = 0 ->
  Timestamp (Some (rev_timestamp r)) = Some ts ->
  exists c' break,
    rev_iteration db n c r w =
      (logged w [{| call_rev := r; call_radius := 15;
                    call_before := ts + 2 * 86400 |}],
       Returns (c', break)) /\
    (check_row db r 15 (ts + 2 * 86400) = None -> c' = c + 1) /\
    (check_row db r 15 (ts + 2 * 86400) <> None -> c' = c).
Proof.
  intros Hns Hts. rewrite (rev_iteration_parsed db n c r ts w Hts).
  change (ts + 2 * 86400) with (ts + 48 * 3600).
  apply Z.eqb_eq in Hns. rewrite Hns.
  destruct (check_row db r 15 (ts + 48 * 3600)) as [revert|].
  - exists c, false. repeat split; congruence.
  - exists (c + 1), (c + 1 >=? n). repeat split; congruence.
Qed.

(** C2. The scan of a user's revisions stops at the [n]-th productive edit:
    when [r] is the [n]-th productive edit of the sequence, the loop
    returns [n] having consulted the revert detector for the content
    revisions up to [r] and for nothing after [r], whatever follows; and
    for [n >= 1] the counter the loop returns never exceeds [n]. *)
Theorem scan_stops_at_threshold :
  (forall (pre : list rev_row) (r : rev_row) (post : list rev_row)
          (w : world),
      forallb parses pre = true ->
      productive_edits_in db pre = n - 1 ->
      productive_edit db r = true ->
      count_productive db n (pre ++ r :: post) 0 w =
        (logged w (evaluation (pre ++ [r])), Returns n)) /\
  (1 <= n ->
   forall (revisions : list rev_row) (w w' : world) (c : Z),
      count_productive db n revisions 0 w = (w', Returns c) ->
      0 <= c <= n).
Proof.
  split.
  - intros pre r post w Hp Hpre Hr.
    pose proof (productive_edits_in_nonneg db pre) as Hpos.
    rewrite (count_productive_below db n pre (r :: post) 0 w Hp) by lia.
    rewrite Hpre, count_productive_cons, evaluation_app, <- logged_logged.
    unfold productive_edit, not_reverted in Hr.
    apply andb_true_iff in Hr as [Hns Hr].
    destruct (Timestamp (Some (rev_timestamp r))) as [ts|] eqn:Hts;
      [|discriminate].
    rewrite (rev_iteration_parsed db n _ r ts _ Hts).
    rewrite (evaluation_cons r ts [] Hts). rewrite Hns.
    destruct (check_row db r 15 (ts + 48 * 3600)); [discriminate|].
    replace (0 + (n - 1) + 1) with n by lia.
    replace (n >=? n) with true by lia.
    reflexivity.
  - intros Hn revisions w w' c Hrun.
    apply count_productive_bound in Hrun; lia.
Qed.

End LoopClaims.

(** ** Claims on a user's row *)

Lemma occurs_join c sep fields :
  occurs c sep = false ->
  Forall (fun f => occurs c f = false) fields ->
  occurs c (Py.join sep fields) = false.
Proof.
  intros Hsep Hall. induction Hall as [|f fs Hf Hfs IH]; [reflexivity|].
  destruct fs as [|g fs]; [exact Hf|].
  change (Py.join sep (f :: g :: fs)) with (f ++ sep ++ Py.join sep (g :: fs)).
  now rewrite !occurs_app, Hf, Hsep, IH.
Qed.

Lemma string_of_uint_no_newline d :
  occurs Py.NEWLINE (NilEmpty.string_of_uint d) = false.
Proof.
  induction d; simpl; auto.
Qed.

Lemma str_int_no_newline i : occurs Py.NEWLINE (Py.str_int i) = false.
Proof.
  unfold Py.str_int, NilZero.string_of_int, NilZero.string_of_uint.
  destruct (Z.to_int i) as [d|d]; destruct d; simpl;
    auto using string_of_uint_no_newline.
Qed.

Lemma filter_filter {A} (f g : A -> bool) (l : list A) :
  filter f (filter g l) = filter (fun x => g x && f x) l.
Proof.
  induction l as [|x l IH]; simpl; [reflexivity|].
  destruct (g x); simpl; [destruct (f x)|]; now rewrite IH.
Qed.

Section UserClaims.

Context {env : Environment}.
Variables (db : DB) (n t : Z).

Lemma productive_before_counts ts (revisions : list rev_row) :
  filter (productive_edit db) (filter (before (ts + t * 86400)) revisions) =
  filter (counts db ts t) revisions.
Proof.
  rewrite filter_filter. apply filter_ext. intros r.
  unfold counts, productive_edit.
  destruct (page_namespace r =? 0), (before (ts + t * 86400) r);
    reflexivity.
Qed.

(** C1. The productive field of a user's row is True exactly when at least
    [n] of the user's revisions are in the content namespace (0), have a
    timestamp before the registration plus [t] times 86400 seconds, and
    are not reverted according to the revert check of radius 15 and
    deadline 48 hours after the revision; it is False otherwise.  The
    second condition is the bound the script gives to the data source,
    which is taken to answer with the user's revisions before that
    bound. *)
Theorem productive_iff_enough_edits (u : user_row) (w : world) (ts : Z) :
  well_formed db t u = true ->
  Timestamp (user_registration u) = Some ts ->
  revisions_query db (user_id u) (Some (ts + t * 86400)) =
    filter (before (ts + t * 86400))
      (revisions_query db (user_id u) None) ->
  exists line w',
    user_iteration db n t u w = (w', Returns tt) /\
    stdout w' = (stdout w ++ [line])%list /\
    (field 3 line = Some "True" <->
     n <= Z.of_nat (List.length (filter (counts db ts t)
                                (revisions_query db (user_id u) None)))) /\
    (field 3 line = Some "False" <->
     Z.of_nat (List.length (filter (counts db ts t)
                         (revisions_query db (user_id u) None))) < n).
Proof.
  intros Hwf Hts Hquery.
  destruct (user_iteration_well_formed db n t u w Hwf)
    as (ts' & registration & calls & c & Hts' & Hreg & _ & Hc & Hrun).
  assert (ts' = ts) as -> by congruence.
  assert (Hfetched : productive_edits_in db (fetched db t u) =
            Z.of_nat (List.length (filter (counts db ts t)
                                (revisions_query db (user_id u) None)))).
  { unfold productive_edits_in, fetched. rewrite Hts.
    replace (ts + DAY_SECONDS * t) with (ts + t * 86400)
      by (unfold DAY_SECONDS; lia).
    now rewrite Hquery, productive_before_counts. }
  rewrite Hfetched in Hc.
  eexists _, _. split; [exact Hrun|]. split; [reflexivity|].
  unfold field.
  rewrite split_row_line by apply str_bool_no_tab. simpl nth_error.
  destruct (c >=? n) eqn:Hge; simpl Py.str_bool;
    (split; split; intros H; try discriminate H; try reflexivity; lia).
Qed.

(** C3. The censored field of a user's row is True exactly when the time
    elapsed since the registration, the difference [time.time() -
    registration] the script computes when it reads the clock for the row,
    is less than [(t + 2) * 86400] seconds; for [t = 1], a user registered
    exactly 3 * 86400 seconds earlier is not censored and one registered
    3 * 86400 - 1 seconds earlier is.  The script subtracts in floating
    point: whenever that subtraction is exact, the field is True exactly
    when the exact difference is less than [(t + 2) * 86400]. *)
Theorem censored_iff_recent (u : user_row) (w : world) (ts : Z) :
  well_formed db t u = true ->
  Timestamp (user_registration u) = Some ts ->
  exists line w',
    user_iteration db n t u w = (w', Returns tt) /\
    stdout w' = (stdout w ++ [line])%list /\
    let now := time_time (clock_reads w) in
    let elapsed := float_sub now ts in
    (field 4 line = Some "True" <->
     (elapsed < inject_Z ((t + 2) * 86400))%Q) /\
    (field 4 line = Some "False" <->
     ~ (elapsed < inject_Z ((t + 2) * 86400))%Q) /\
    (t = 1 -> (elapsed == inject_Z (3 * 86400))%Q ->
     field 4 line = Some "False") /\
    (t = 1 -> (elapsed == inject_Z (3 * 86400 - 1))%Q ->
     field 4 line = Some "True") /\
    ((elapsed == now - inject_Z ts)%Q ->
     (field 4 line = Some "True" <->
      (now - inject_Z ts < inject_Z ((t + 2) * 86400))%Q)).
Proof.
  intros Hwf Hts.
  destruct (user_iteration_well_formed db n t u w Hwf)
    as (ts' & registration & calls & c & Hts' & Hreg & _ & _ & Hrun).
  assert (ts' = ts) as -> by congruence.
  eexists _, _. split; [exact Hrun|]. split; [reflexivity|].
  intros now elapsed. unfold field.
  rewrite split_row_line by apply str_bool_no_tab. simpl nth_error.
  unfold censored_flag. fold now. fold elapsed.
  replace ((2 + t) * DAY_SECONDS) with ((t + 2) * 86400)
    by (unfold DAY_SECONDS; lia).
  pose proof (Qltb_lt elapsed (inject_Z ((t + 2) * 86400))) as Hlt.
  destruct (Qltb elapsed (inject_Z ((t + 2) * 86400))) eqn:Hb.
  - assert (Hel : (elapsed < inject_Z ((t + 2) * 86400))%Q)
      by now apply Hlt.
    split; [simpl; tauto|]. split; [simpl; split; [discriminate|tauto]|].
    split; [|split].
    + intros -> Heq. rewrite Heq in Hel. exfalso.
      revert Hel. apply Qle_not_lt. simpl. apply Qle_refl.
    + reflexivity.
    + intros Hexact. rewrite <- Hexact. simpl. tauto.
  - assert (Hel : ~ (elapsed < inject_Z ((t + 2) * 86400))%Q).
    { intros H. apply Hlt in H. discriminate. }
    split; [simpl; split; [discriminate|tauto]|]. split; [simpl; tauto|].
    split; [|split].
    + reflexivity.
    + intros -> Heq. exfalso. apply Hel. rewrite Heq.
      rewrite <- Zlt_Qlt. simpl. lia.
    + intros Hexact. rewrite <- Hexact. simpl.
      split; [discriminate|tauto].
Qed.

(** C5. A user whose fetched revisions are all outside the content
    namespace is not productive, for every [n >= 1]: the productive field
    of the row is False and the revert detector is not consulted, so what
    it would answer is of no consequence. *)
Theorem non_content_edits_never_count (u : user_row) (w : world) :
  1 <= n ->
  well_formed db t u = true ->
  Forall (fun r => page_namespace r <> 0) (fetched db t u) ->
  exists line w',
    user_iteration db n t u w = (w', Returns tt) /\
    stdout w' = (stdout w ++ [line])%list /\
    field 3 line = Some "False" /\
    detector_calls w' = detector_calls w.
Proof.
  intros Hn Hwf Hns.
  destruct (well_formed_inv db t u Hwf)
    as (ts & registration & Hts & Hreg & Hp & Hname & Hvalid).
  pose proof (count_productive_no_content db n _ 0 w Hp Hns) as Hcount.
  eexists _, _.
  split; [exact (user_iteration_after_count db n t u ts registration w w 0
                   Hts Hreg Hname Hvalid Hcount)|].
  split; [reflexivity|]. split; [|reflexivity].
  unfold field. rewrite split_row_line by apply str_bool_no_tab.
  simpl nth_error. replace (0 >=? n) with false by lia. reflexivity.
Qed.

(** C8. In a user's row the name and the registration are escaped: each
    tab is replaced by backslash-t and each newline by backslash-n, so
    that the row splits on tabs into exactly five fields, the second and
    third being the escaped name and registration, and contains no
    newline. *)
Theorem row_has_five_fields (u : user_row) (w : world) :
  well_formed db t u = true ->
  exists line w' registration,
    user_registration u = Some registration /\
    user_iteration db n t u w = (w', Returns tt) /\
    stdout w' = (stdout w ++ [line])%list /\
    List.length (Py.split Py.TAB line) = 5%nat /\
    field 1 line = Some (escape_spec (user_name u)) /\
    field 2 line = Some (escape_spec registration) /\
    occurs Py.NEWLINE line = false.
Proof.
  intros Hwf.
  destruct (user_iteration_well_formed db n t u w Hwf)
    as (ts & registration & calls & c & Hts & Hreg & _ & _ & Hrun).
  eexists _, _, registration. split; [exact Hreg|].
  split; [exact Hrun|]. split; [reflexivity|].
  unfold field. rewrite split_row_line by apply str_bool_no_tab.
  rewrite <- !escape_escape_spec.
  split; [reflexivity|]. split; [reflexivity|]. split; [reflexivity|].
  apply occurs_join; [reflexivity|].
  repeat constructor;
    auto using str_int_no_newline, escape_no_newline;
    match goal with |- context [Py.str_bool ?b] => now destruct b end.
Qed.

End UserClaims.

(** ** Claims on the whole run *)

Lemma for_each_app {A} (xs ys : list A) (body : A -> M unit) (w : world) :
  for_each (xs ++ ys) body w =
    match for_each xs body w with
    | (w', Returns _) => for_each ys body w'
    | (w', Raises e) => (w', Raises e)
    end.
Proof.
  revert w. induction xs as [|x xs IH]; intros w; [reflexivity|].
  simpl. unfold bind. destruct (body x w) as [w1 [[]|e]]; [apply IH|].
  reflexivity.
Qed.

Section RunClaims.

Context {env : Environment}.
Variables (db : DB) (start_date end_date n t : Z).

(** The loop over well-formed users prints one row for each, in order. *)
Lemma for_each_user_rows (users : list user_row) (w : world) :
  Forall (fun u => well_formed db t u = true) users ->
  exists w' rows,
    for_each users (user_iteration db n t) w = (w', Returns tt) /\
    stdout w' = (stdout w ++ rows)%list /\
    Forall2 row_of users rows.
Proof.
  intros Hall. revert w.
  induction Hall as [|u users Hu _ IH]; intros w.
  - exists w, []. simpl. rewrite app_nil_r. repeat split. constructor.
  - destruct (user_iteration_well_formed db n t u w Hu)
      as (ts & registration & calls & c & _ & Hreg & _ & _ & Hrun).
    simpl. unfold bind. rewrite Hrun.
    match goal with
    | |- context [for_each users _ ?w1] =>
        destruct (IH w1) as (w' & rows & Hrest & Hout & Hrows)
    end.
    eexists w', (_ :: rows). split; [exact Hrest|].
    split; [rewrite Hout; simpl; now rewrite <- app_assoc|].
    constructor; [|exact Hrows].
    exists registration, (Py.str_bool (c >=? n)),
      (Py.str_bool (censored_flag t (time_time (clock_reads w)) ts)).
    auto using str_bool_cases.
Qed.

(** C6, as the script has it.  When the registration timestamp of a user
    cannot be built, the exception reaches the caller of [run] and ends
    the run: the rows of the users before that one have been printed, and
    no row is printed for that user nor for any user after. *)
Theorem unparsable_registration_ends_run
    (good : list user_row) (bad : user_row) (rest : list user_row) :
  users_query db start_date end_date = (good ++ bad :: rest)%list ->
  Forall (fun u => well_formed db t u = true) good ->
  Timestamp (user_registration bad) = None ->
  exists w rows,
    run db start_date end_date n t world0 = (w, Raises TimestampError) /\
    stdout w =
      Py.join (String Py.TAB EmptyString)
        ["user_id"; "user_name"; "user_registration"; "productive";
         "censored"] :: rows /\
    Forall2 row_of good rows.
Proof.
  intros Husers Hgood Hbad. unfold run, bind, print. simpl stdout.
  rewrite Husers, for_each_app.
  match goal with
  | |- context [for_each good _ ?w1] =>
      destruct (for_each_user_rows good w1 Hgood)
        as (w & rows & -> & Hout & Hrows)
  end.
  simpl for_each. unfold bind.
  rewrite (user_iteration_unparsed db n t bad w Hbad).
  exists w, rows. split; [reflexivity|]. split; [exact Hout|exact Hrows].
Qed.

End RunClaims.

(** ** The revert detector *)

Module RevertDetectorClaims.

Import RevertDetector.

(** Walking further never loses a revert that was found. *)
Lemma walk_app ancestors undone window more record :
  walk ancestors undone window = Some record ->
  walk ancestors undone (window ++ more) = Some record.
Proof.
  revert undone. induction window as [|R window IH]; intros undone;
    simpl; [discriminate|].
  destruct (find _ ancestors); [trivial|]. apply IH.
Qed.

(** With a larger radius and a later deadline the walk starts with the
    same revisions. *)
Lemma examined_extends window radius radius' deadline deadline' :
  (radius <= radius')%nat -> deadline <= deadline' ->
  exists more,
    examined window radius' deadline' =
      (examined window radius deadline ++ more)%list.
Proof.
  intros Hr Hd. revert radius radius' Hr.
  induction window as [|R window IH]; intros radius radius' Hr.
  - exists []. now destruct radius, radius'.
  - destruct radius as [|radius]; [simpl; eauto|].
    destruct radius' as [|radius']; [lia|]. simpl.
    destruct (timestamp R <=? deadline) eqn:Hle.
    + replace (timestamp R <=? deadline') with true by lia.
      destruct (IH radius radius') as [more ->]; [lia|].
      now exists more.
    + simpl. eauto.
Qed.

(** C9. The revert check is monotone in its bounds: for a fixed candidate
    and window, a revert found with some radius and deadline is found,
    and is the same, with any larger radius and later deadline; so raising
    a bound never turns a non-null result into null. *)
Theorem is_reverted_monotone (ancestors : list Revision)
    (candidate : Revision) (window : list Revision)
    (radius radius' deadline deadline' : Z) :
  radius <= radius' ->
  deadline <= deadline' ->
  (is_reverted ancestors candidate window radius deadline <> None ->
   is_reverted ancestors candidate window radius' deadline' <> None) /\
  (forall record,
      is_reverted ancestors candidate window radius deadline = Some record ->
      is_reverted ancestors candidate window radius' deadline'
        = Some record).
Proof.
  intros Hr Hd.
  assert (Hsame : forall record,
    is_reverted ancestors candidate window radius deadline = Some record ->
    is_reverted ancestors candidate window radius' deadline' = Some record).
  { intros record Hfound. unfold is_reverted in *.
    destruct (examined_extends window (Z.to_nat radius) (Z.to_nat radius')
                deadline deadline') as [more ->]; [lia|assumption|].
    now apply walk_app. }
  split; [|exact Hsame].
  intros Hfound.
  destruct (is_reverted ancestors candidate window radius deadline)
    as [record|] eqn:Hrec; [|congruence].
  now rewrite (Hsame record).
Qed.

End RevertDetectorClaims.

(** ** The claims at concrete inputs *)

(** Three content edits, none reverted, and [n = 2]: the third revision is
    in the window and the user is productive. *)
Lemma productive_iff_enough_edits_witness :
  exists line w',
    @user_iteration (demo_env (inject_Z 300000)) three_edits 2 1 alice world0
      = (w', Returns tt) /\
    stdout w' = [line] /\
    (field 3 line = Some "True" <-> 2 <= 3) /\
    (field 3 line = Some "False" <-> 3 < 2).
Proof.
  exact (@productive_iff_enough_edits (demo_env (inject_Z 300000))
           three_edits 2 1 alice world0 1000 eq_refl eq_refl eq_refl).
Defined.

(** Three edits that are not reverted and [n = 2]: the detector is consulted
    for the first two only. *)
Lemma scan_stops_at_threshold_witness :
  @count_productive (demo_env (inject_Z 300000)) three_edits 2
    [edit 1 "4600"; edit 2 "8200"; edit 3 "11800"] 0 world0 =
    (logged world0
       [{| call_rev := edit 1 "4600"; call_radius := 15;
           call_before := 4600 + 172800 |};
        {| call_rev := edit 2 "8200"; call_radius := 15;
           call_before := 8200 + 172800 |}],
     Returns 2).
Proof.
  exact (proj1 (@scan_stops_at_threshold (demo_env (inject_Z 300000))
                  three_edits 2)
           [edit 1 "4600"] (edit 2 "8200") [edit 3 "11800"] world0
           eq_refl eq_refl eq_refl).
Defined.

(** [t = 1] and a registration exactly 3 * 86400 seconds before the clock
    reading: not censored. *)
Lemma censored_iff_recent_witness :
  exists line w',
    @user_iteration (demo_env (inject_Z (1000 + 3 * 86400))) three_edits 1 1
      alice world0 = (w', Returns tt) /\
    stdout w' = [line] /\
    field 4 line = Some "False".
Proof.
  destruct (@censored_iff_recent (demo_env (inject_Z (1000 + 3 * 86400)))
              three_edits 1 1 alice world0 1000 eq_refl eq_refl)
    as (line & w' & Hrun & Hout & _ & _ & Hboundary & _).
  exists line, w'. split; [exact Hrun|]. split; [exact Hout|].
  apply Hboundary; reflexivity.
Defined.

Lemma content_revision_evaluation_witness :
  exists c' break,
    @rev_iteration (demo_env (inject_Z 300000)) three_edits 1 0
      (edit 1 "4600") world0 =
      (logged world0 [{| call_rev := edit 1 "4600"; call_radius := 15;
                         call_before := 177400 |}],
       Returns (c', break)) /\
    (@check_row (demo_env (inject_Z 300000)) three_edits (edit 1 "4600") 15
       177400 = None -> c' = 0 + 1) /\
    (@check_row (demo_env (inject_Z 300000)) three_edits (edit 1 "4600") 15
       177400 <> None -> c' = 0).
Proof.
  exact (@content_revision_evaluation (demo_env (inject_Z 300000))
           three_edits 1 0 (edit 1 "4600") 4600 world0 eq_refl eq_refl).
Defined.

(** Only talk-page edits, one of them reverted, and [n = 1]. *)
Lemma non_content_edits_never_count_witness :
  exists line w',
    @user_iteration (demo_env (inject_Z 300000)) talk_only 1 1 alice world0
      = (w', Returns tt) /\
    stdout w' = [line] /\
    field 3 line = Some "False" /\
    detector_calls w' = [].
Proof.
  refine (@non_content_edits_never_count (demo_env (inject_Z 300000))
            talk_only 1 1 alice world0 ltac:(lia) eq_refl _).
  repeat constructor; discriminate.
Defined.

(** A user name with a tab in it. *)
Lemma row_has_five_fields_witness :
  exists line w' registration,
    user_registration alice = Some registration /\
    @user_iteration (demo_env (inject_Z 300000)) three_edits 1 1 alice world0
      = (w', Returns tt) /\
    stdout w' = [line] /\
    List.length (Py.split Py.TAB line) = 5%nat /\
    field 1 line = Some "A\tlice" /\
    field 2 line = Some registration /\
    occurs Py.NEWLINE line = false.
Proof.
  destruct (@row_has_five_fields (demo_env (inject_Z 300000)) three_edits 1 1
              alice world0 eq_refl)
    as (line & w' & registration & Hreg & Hrun & Hout & Hlen & Hname & Hr
        & Hnl).
  exists line, w', registration.
  assert (registration = "1000") as Heq by (simpl in Hreg; congruence).
  rewrite Heq in Hr. repeat split; try assumption. now rewrite Heq.
Defined.

(** C6, the claim as stated, fails: the data source returns Alice, a user
    whose registration cannot be read, and Bob; the run ends at the second
    user and Bob, who is well-formed, has no row. *)
Lemma not_fatal_for_that_row_only :
  ~ @fatal_for_that_row_only (demo_env (inject_Z 300000)) one_bad_row
      0 5000 1 1.
Proof.
  intros Hclaim.
  destruct (Hclaim bob) as (line & Hin & Hrow).
  - simpl. auto.
  - reflexivity.
  - destruct Hrow as (registration & p & c & Hreg & _ & _ & Hline).
    vm_compute in Hin. unfold row_line in Hline. simpl in Hline.
    destruct Hin as [Hin|[Hin|[]]]; rewrite <- Hin in Hline;
      discriminate Hline.
Qed.

Lemma unparsable_registration_ends_run_witness :
  exists w rows,
    @run (demo_env (inject_Z 300000)) one_bad_row 0 5000 1 1 world0
      = (w, Raises TimestampError) /\
    stdout w =
      Py.join (String Py.TAB EmptyString)
        ["user_id"; "user_name"; "user_registration"; "productive";
         "censored"] :: rows /\
    Forall2 row_of [alice] rows.
Proof.
  refine (@unparsable_registration_ends_run (demo_env (inject_Z 300000))
            one_bad_row 0 5000 1 1 [alice] mallory [bob] eq_refl _ eq_refl).
  repeat constructor.
Defined.

(** The revert of the candidate is two revisions away, at time 300: found
    with radius 2 and deadline 300, hence with radius 15 and deadline 500. *)
Lemma is_reverted_monotone_witness :
  RevertDetector.is_reverted HistoryDemo.ancestors HistoryDemo.candidate
    HistoryDemo.window 15 500 <> None.
Proof.
  refine (proj1 (RevertDetectorClaims.is_reverted_monotone
                   HistoryDemo.ancestors HistoryDemo.candidate
                   HistoryDemo.window 2 15 300 500
                   ltac:(lia) ltac:(lia)) _).
  discriminate.
Defined.

(** * Further properties of the script *)

(** ** [escape] *)

Lemma append_assoc_string (s1 s2 s3 : string) :
  (s1 ++ s2) ++ s3 = s1 ++ (s2 ++ s3).
Proof.
  induction s1 as [|c s1 IH]; simpl; [reflexivity|]. now rewrite IH.
Qed.

Lemma length_append_string (s1 s2 : string) :
  String.length (s1 ++ s2) = (String.length s1 + String.length s2)%nat.
Proof.
  induction s1 as [|c s1 IH]; simpl; [reflexivity|]. now rewrite IH.
Qed.

Lemma escape_spec_app (s1 s2 : string) :
  escape_spec (s1 ++ s2) = escape_spec s1 ++ escape_spec s2.
Proof.
  induction s1 as [|c s1 IH]; simpl; [reflexivity|].
  now rewrite IH, append_assoc_string.
Qed.

(** X1. Escaping distributes over concatenation: a text can be escaped piece
    by piece. *)
Theorem escape_app (s1 s2 : string) :
  escape (s1 ++ s2) = escape s1 ++ escape s2.
Proof.
  rewrite !escape_escape_spec. apply escape_spec_app.
Qed.

(** X2. The strings [escape] leaves unchanged are exactly those with no tab
    and no newline. *)
Theorem escape_fixed_point (s : string) :
  escape s = s <->
  occurs Py.TAB s = false /\ occurs Py.NEWLINE s = false.
Proof.
  split.
  - intros Heq. rewrite <- Heq.
    split; [apply escape_no_tab | apply escape_no_newline].
  - intros [Htab Hnl]. unfold escape.
    rewrite (replace_absent Py.TAB) by assumption.
    now apply replace_absent.
Qed.

(** X3. Escaping lengthens a string by one character for each tab and each
    newline in it, and never shortens it. *)
Theorem escape_length (s : string) :
  String.length (escape s) =
    (String.length s + count_char Py.TAB s + count_char Py.NEWLINE s)%nat.
Proof.
  rewrite escape_escape_spec.
  induction s as [|c s IH]; simpl; [reflexivity|].
  rewrite length_append_string, IH. unfold escape_char.
  destruct (Ascii.eqb c Py.TAB) eqn:Ht.
  - apply Ascii.eqb_eq in Ht. subst c. simpl. lia.
  - destruct (Ascii.eqb c Py.NEWLINE); simpl; lia.
Qed.

(** X4. [escape] does not escape the backslash, so it cannot be undone: in
    any context, a tab and the two characters backslash, t are escaped to
    the same text, and so are a newline and backslash, n. *)
Theorem escape_not_injective (s1 s2 : string) :
  escape (s1 ++ String Py.TAB s2) = escape (s1 ++ "\t" ++ s2) /\
  s1 ++ String Py.TAB s2 <> s1 ++ "\t" ++ s2 /\
  escape (s1 ++ String Py.NEWLINE s2) = escape (s1 ++ "\n" ++ s2) /\
  s1 ++ String Py.NEWLINE s2 <> s1 ++ "\n" ++ s2.
Proof.
  assert (Hneq : forall (c : ascii) (r : string),
             c <> "\"%char ->
             s1 ++ String c s2 <> s1 ++ String "\" r).
  { intros c r Hc. induction s1 as [|d s1 IH]; simpl.
    - intros H. injection H as H _. contradiction.
    - intros H. injection H as H. contradiction. }
  repeat split.
  - rewrite !escape_escape_spec, !escape_spec_app. reflexivity.
  - apply Hneq. discriminate.
  - rewrite !escape_escape_spec, !escape_spec_app. reflexivity.
  - apply Hneq. discriminate.
Qed.

(** ** The loop over a user's revisions *)

Section LoopFurther.

Context {env : Environment}.
Variables (db : DB) (n : Z).

(** Revisions that are not productive edits are walked over, whatever the
    threshold is. *)
Lemma count_productive_unproductive pre rest c w :
  forallb parses pre = true ->
  productive_edits_in db pre = 0 ->
  count_productive db n (pre ++ rest) c w =
    count_productive db n rest c (logged w (evaluation pre)).
Proof.
  revert w. induction pre as [|r pre IH]; intros w Hp Hnone.
  - simpl. now rewrite logged_nil.
  - simpl in Hp. apply andb_true_iff in Hp as [Hr Hp].
    unfold parses in Hr.
    destruct (Timestamp (Some (rev_timestamp r))) as [ts|] eqn:Hts;
      [clear Hr | discriminate].
    rewrite productive_edits_in_cons in Hnone.
    pose proof (productive_edits_in_nonneg db pre) as Hpos.
    rewrite (productive_edit_parsed db r ts Hts) in Hnone.
    rewrite <- app_comm_cons, count_productive_cons.
    rewrite (rev_iteration_parsed db n c r ts w Hts).
    rewrite (evaluation_cons r ts pre Hts).
    destruct (page_namespace r =? 0); cbv [andb] in *.
    + destruct (check_row db r 15 (ts + 48 * 3600)); [|lia].
      rewrite IH by (assumption || lia). now rewrite logged_logged.
    + rewrite IH by (assumption || lia). reflexivity.
Qed.

(** X5. Below the threshold the count is exact: when the revisions hold
    fewer than [n] productive edits, the loop evaluates every content
    revision and returns the number of productive edits. *)
Theorem count_exact_below_threshold (revisions : list rev_row) (w : world) :
  forallb parses revisions = true ->
  productive_edits_in db revisions < n ->
  count_productive db n revisions 0 w =
    (logged w (evaluation revisions),
     Returns (productive_edits_in db revisions)).
Proof.
  intros Hp Hlt.
  pose proof (count_productive_below db n revisions [] 0 w Hp) as H.
  rewrite app_nil_r in H. rewrite H by lia. reflexivity.
Qed.

(** X6. The timestamp of a revision is built before its namespace is looked
    at: a revision whose timestamp cannot be built, met before the
    threshold is reached, makes the loop raise, whatever its namespace, after
    the revisions before it were evaluated. *)
Theorem unparsable_revision_raises (pre : list rev_row) (r : rev_row)
    (post : list rev_row) (w : world) :
  forallb parses pre = true ->
  productive_edits_in db pre < n ->
  Timestamp (Some (rev_timestamp r)) = None ->
  count_productive db n (pre ++ r :: post) 0 w =
    (logged w (evaluation pre), Raises TimestampError).
Proof.
  intros Hp Hlt Hr.
  rewrite (count_productive_below db n pre (r :: post) 0 w Hp) by lia.
  rewrite count_productive_cons.
  now rewrite (rev_iteration_unparsed db n _ r _ Hr).
Qed.

(** The calls of the loop are an initial part of the calls a full evaluation
    makes. *)
Lemma count_productive_calls revisions c w :
  exists calls rest,
    fst (count_productive db n revisions c w) = logged w calls /\
    evaluation revisions = (calls ++ rest)%list.
Proof.
  revert c w. induction revisions as [|r revisions IH]; intros c w.
  - exists [], []. simpl. now rewrite logged_nil.
  - rewrite count_productive_cons.
    destruct (Timestamp (Some (rev_timestamp r))) as [ts|] eqn:Hts.
    + rewrite (rev_iteration_parsed db n c r ts w Hts).
      rewrite (evaluation_cons r ts revisions Hts).
      destruct (page_namespace r =? 0).
      * destruct (check_row db r 15 (ts + 48 * 3600)).
        -- destruct (IH c (logged w [call_for r ts]))
             as (calls & rest & -> & ->).
           rewrite logged_logged. eexists _, rest.
           split; [reflexivity|]. now rewrite app_assoc.
        -- destruct (c + 1 >=? n).
           ++ exists [call_for r ts], (evaluation revisions).
              split; reflexivity.
           ++ destruct (IH (c + 1) (logged w [call_for r ts]))
                as (calls & rest & -> & ->).
              rewrite logged_logged. eexists _, rest.
              split; [reflexivity|]. now rewrite app_assoc.
      * apply IH.
    + rewrite (rev_iteration_unparsed db n c r w Hts).
      exists [], (evaluation (r :: revisions)).
      simpl fst. now rewrite logged_nil.
Qed.

(** X7. Whatever the revisions are and however the loop ends, it prints
    nothing and does not read the clock, and the calls it makes to the
    revert detector are the first calls of a full evaluation: content
    revisions only, in order, once each, with radius 15 and the timestamp
    plus 48 hours as deadline. *)
Theorem loop_only_consults_detector (revisions : list rev_row) (c : Z)
    (w : world) :
  exists calls rest,
    stdout (fst (count_productive db n revisions c w)) = stdout w /\
    clock_reads (fst (count_productive db n revisions c w)) = clock_reads w /\
    detector_calls (fst (count_productive db n revisions c w)) =
      (detector_calls w ++ calls)%list /\
    evaluation revisions = (calls ++ rest)%list /\
    Forall (fun call =>
              In (call_rev call) revisions /\
              page_namespace (call_rev call) = 0 /\
              call_radius call = 15 /\
              exists ts,
                Timestamp (Some (rev_timestamp (call_rev call))) = Some ts /\
                call_before call = ts + 2 * 86400) calls.
Proof.
  destruct (count_productive_calls revisions c w)
    as (calls & rest & Hw & Heval).
  exists calls, rest. rewrite Hw.
  split; [reflexivity|]. split; [reflexivity|]. split; [reflexivity|].
  split; [exact Heval|].
  assert (Hall : Forall (fun call =>
              In (call_rev call) revisions /\
              page_namespace (call_rev call) = 0 /\
              call_radius call = 15 /\
              exists ts,
                Timestamp (Some (rev_timestamp (call_rev call))) = Some ts /\
                call_before call = ts + 2 * 86400) (evaluation revisions)).
  { clear. apply Forall_forall. intros call Hin.
    unfold evaluation in Hin. apply in_flat_map in Hin as (r & Hr & Hin).
    destruct (Timestamp (Some (rev_timestamp r))) as [ts|] eqn:Hts;
      [|contradiction].
    destruct (page_namespace r =? 0) eqn:Hns; [|contradiction].
    destruct Hin as [<-|[]]. simpl.
    split; [exact Hr|]. split; [now apply Z.eqb_eq|].
    split; [reflexivity|]. now exists ts. }
  rewrite Heval in Hall. now apply Forall_app in Hall.
Qed.

(** X8. For a threshold of 1 or less the loop stops at the first productive
    edit and returns 1: with [n <= 0] the counter ends above the
    threshold, and the revisions after the first productive edit are not
    looked at. *)
Theorem loop_stops_at_first_productive (pre : list rev_row) (r : rev_row)
    (post : list rev_row) (w : world) :
  n <= 1 ->
  forallb parses pre = true ->
  productive_edits_in db pre = 0 ->
  productive_edit db r = true ->
  count_productive db n (pre ++ r :: post) 0 w =
    (logged w (evaluation (pre ++ [r])), Returns 1).
Proof.
  intros Hn Hp Hnone Hr.
  rewrite (count_productive_unproductive pre (r :: post) 0 w Hp Hnone).
  rewrite count_productive_cons, evaluation_app, <- logged_logged.
  unfold productive_edit, not_reverted in Hr.
  apply andb_true_iff in Hr as [Hns Hr].
  destruct (Timestamp (Some (rev_timestamp r))) as [ts|] eqn:Hts;
    [|discriminate].
  rewrite (rev_iteration_parsed db n _ r ts _ Hts).
  rewrite (evaluation_cons r ts [] Hts). rewrite Hns.
  destruct (check_row db r 15 (ts + 48 * 3600)); [discriminate|].
  replace (0 + 1 >=? n) with true by lia.
  reflexivity.
Qed.

End LoopFurther.

(** ** A user's row *)

Lemma filter_length_le {A} (f g : A -> bool) (l : list A) :
  (forall x, f x = true -> g x = true) ->
  (List.length (filter f l) <= List.length (filter g l))%nat.
Proof.
  intros Himp. induction l as [|x l IH]; simpl; [lia|].
  destruct (f x) eqn:Hf.
  - rewrite (Himp x Hf). simpl. lia.
  - destruct (g x); simpl; lia.
Qed.

Lemma str_int_inj (i j : Z) : Py.str_int i = Py.str_int j -> i = j.
Proof.
  unfold Py.str_int. intros Heq.
  assert (Hnonnil : forall z, Z.to_int z <> Decimal.Pos Decimal.Nil /\
                              Z.to_int z <> Decimal.Neg Decimal.Nil).
  { intros [|p|p]; simpl; split; try discriminate;
      intros H; injection H as H;
      exact (DecimalPos.Unsigned.to_uint_nonnil p H). }
  apply DecimalZ.to_int_inj.
  apply (f_equal NilZero.int_of_string) in Heq.
  rewrite !NilZero.isi in Heq by apply Hnonnil.
  now injection Heq.
Qed.

Section UserFurther.

Context {env : Environment}.
Variables (db : DB) (t : Z).

(** The row of a well-formed user, with its two flags. *)
Lemma well_formed_row n u w :
  well_formed db t u = true ->
  exists ts line w',
    Timestamp (user_registration u) = Some ts /\
    user_iteration db n t u w = (w', Returns tt) /\
    stdout w' = (stdout w ++ [line])%list /\
    field 3 line =
      Some (Py.str_bool (productive_edits_in db (fetched db t u) >=? n)) /\
    field 4 line =
      Some (Py.str_bool
              (censored_flag t (time_time (clock_reads w)) ts)).
Proof.
  intros Hwf.
  destruct (user_iteration_well_formed db n t u w Hwf)
    as (ts & registration & calls & c & Hts & Hreg & _ & Hc & Hrun).
  eexists ts, _, _. split; [exact Hts|]. split; [exact Hrun|].
  split; [reflexivity|]. unfold field.
  rewrite split_row_line by apply str_bool_no_tab. simpl nth_error.
  split; [|reflexivity]. do 2 f_equal.
  destruct (c >=? n) eqn:Hge;
    destruct (productive_edits_in db (fetched db t u) >=? n) eqn:Hge';
    try reflexivity; lia.
Qed.

Lemma some_str_bool_True b : Some (Py.str_bool b) = Some "True" <-> b = true.
Proof. destruct b; simpl; split; congruence. Qed.

(** X9. Lowering the threshold never loses a productive user: a well-formed
    user whose row says productive for [n] has a row that says productive
    for every [n' <= n]. *)
Theorem lower_threshold_keeps_productive (n n' : Z) (u : user_row)
    (w : world) :
  well_formed db t u = true ->
  n' <= n ->
  exists line line' w1 w2,
    user_iteration db n t u w = (w1, Returns tt) /\
    stdout w1 = (stdout w ++ [line])%list /\
    user_iteration db n' t u w = (w2, Returns tt) /\
    stdout w2 = (stdout w ++ [line'])%list /\
    (field 3 line = Some "True" -> field 3 line' = Some "True").
Proof.
  intros Hwf Hle.
  destruct (well_formed_row n u w Hwf)
    as (ts & line & w1 & _ & Hrun & Hout & Hp & _).
  destruct (well_formed_row n' u w Hwf)
    as (ts' & line' & w2 & _ & Hrun' & Hout' & Hp' & _).
  exists line, line', w1, w2. repeat (split; [assumption|]).
  rewrite Hp, Hp', !some_str_bool_True. lia.
Qed.

(** X10. With a threshold of 0 or less every well-formed user is reported
    productive, whatever the user's edits are. *)
Theorem nonpositive_threshold_all_productive (n : Z) (u : user_row)
    (w : world) :
  well_formed db t u = true ->
  n <= 0 ->
  exists line w',
    user_iteration db n t u w = (w', Returns tt) /\
    stdout w' = (stdout w ++ [line])%list /\
    field 3 line = Some "True".
Proof.
  intros Hwf Hn.
  destruct (well_formed_row n u w Hwf)
    as (ts & line & w' & _ & Hrun & Hout & Hp & _).
  exists line, w'. repeat (split; [assumption|]).
  rewrite Hp, some_str_bool_True.
  pose proof (productive_edits_in_nonneg db (fetched db t u)). lia.
Qed.


End UserFurther.

Section WindowFurther.

Context {env : Environment}.
Variables (db : DB) (n : Z).

(** X12. Widening the window never loses a productive user, when the data
    source answers with the user's revisions before the bound it is given:
    a user whose row says productive for a window of [t] days has a row that
    says productive for every window of [t' >= t] days. *)
Theorem wider_window_keeps_productive (t t' : Z) (u : user_row) (w : world)
    (ts : Z) :
  well_formed db t u = true ->
  well_formed db t' u = true ->
  Timestamp (user_registration u) = Some ts ->
  revisions_query db (user_id u) (Some (ts + t * 86400)) =
    filter (before (ts + t * 86400))
      (revisions_query db (user_id u) None) ->
  revisions_query db (user_id u) (Some (ts + t' * 86400)) =
    filter (before (ts + t' * 86400))
      (revisions_query db (user_id u) None) ->
  t <= t' ->
  exists line line' w1 w2,
    user_iteration db n t u w = (w1, Returns tt) /\
    stdout w1 = (stdout w ++ [line])%list /\
    user_iteration db n t' u w = (w2, Returns tt) /\
    stdout w2 = (stdout w ++ [line'])%list /\
    (field 3 line = Some "True" -> field 3 line' = Some "True").
Proof.
  intros Hwf Hwf' Hts Hq Hq' Hle.
  destruct (well_formed_row db t n u w Hwf)
    as (ts1 & line & w1 & _ & Hrun & Hout & Hp & _).
  destruct (well_formed_row db t' n u w Hwf')
    as (ts2 & line' & w2 & _ & Hrun' & Hout' & Hp' & _).
  exists line, line', w1, w2. repeat (split; [assumption|]).
  rewrite Hp, Hp', !some_str_bool_True.
  assert (Hfetched : forall d,
    revisions_query db (user_id u) (Some (ts + d * 86400)) =
      filter (before (ts + d * 86400))
        (revisions_query db (user_id u) None) ->
    productive_edits_in db (fetched db d u) =
      Z.of_nat (List.length (filter (counts db ts d)
                               (revisions_query db (user_id u) None)))).
  { intros d Hd. unfold productive_edits_in, fetched. rewrite Hts.
    replace (ts + DAY_SECONDS * d) with (ts + d * 86400)
      by (unfold DAY_SECONDS; lia).
    now rewrite Hd, productive_before_counts. }
  rewrite (Hfetched t Hq), (Hfetched t' Hq').
  assert (Hcounts :
    (List.length (filter (counts db ts t)
                    (revisions_query db (user_id u) None)) <=
     List.length (filter (counts db ts t')
                    (revisions_query db (user_id u) None)))%nat).
  { apply filter_length_le. intros r. unfold counts, before.
    destruct (page_namespace r =? 0); [|discriminate].
    destruct (Timestamp (Some (rev_timestamp r))) as [rts|]; [|discriminate].
    destruct (not_reverted db r); [|now rewrite !andb_false_r].
    rewrite !andb_true_r. simpl. lia. }
  lia.
Qed.

End WindowFurther.

(** ** Rows and runs in general *)

Section RunFurther.

Context {env : Environment}.
Variables (db : DB) (n t : Z).










(** X15. The name is decoded after the revisions were scanned: a user whose
    name is not UTF-8 makes the run raise [UnicodeDecodeError] without a
    row, once the revert detector has been consulted for the user's
    revisions. *)
Theorem undecodable_name_raises (u : user_row) (w : world) (ts : Z) :
  Timestamp (user_registration u) = Some ts ->
  forallb parses (fetched db t u) = true ->
  Py.utf8_valid (user_name u) = false ->
  exists calls c,
    count_productive db n (fetched db t u) 0 w =
      (logged w calls, Returns c) /\
    user_iteration db n t u w = (logged w calls, Raises UnicodeDecodeError).
Proof.
  intros Hts Hp Hname.
  destruct (count_productive_returns db n (fetched db t u) 0 w Hp)
    as (calls & c & Hcount & _).
  exists calls, c. split; [exact Hcount|].
  unfold fetched in Hcount. rewrite Hts in Hcount.
  unfold user_iteration, bind, new_Timestamp. rewrite Hts.
  unfold ret at 1. rewrite Hcount.
  unfold row_fields, bind, str_utf8. now rewrite Hname.
Qed.

End RunFurther.

(** X16. A row identifies its user: a line that is a row for two users is
    a row for users with the same identifier. *)
Theorem row_identifies_user (u1 u2 : user_row) (line : string) :
  row_of u1 line -> row_of u2 line -> user_id u1 = user_id u2.
Proof.
  intros (r1 & p1 & c1 & _ & Hp1 & Hc1 & H1) (r2 & p2 & c2 & _ & Hp2 & Hc2 & H2).
  assert (Hflag : forall f, f = "True" \/ f = "False" ->
                            occurs Py.TAB f = false).
  { intros f [->| ->]; reflexivity. }
  pose proof (split_row_line u1 r1 p1 c1 (Hflag _ Hp1) (Hflag _ Hc1)) as S1.
  pose proof (split_row_line u2 r2 p2 c2 (Hflag _ Hp2) (Hflag _ Hc2)) as S2.
  rewrite <- H1 in S1. rewrite <- H2 in S2. rewrite S1 in S2.
  injection S2 as Hid _. now apply str_int_inj.
Qed.

(** ** The report of a run *)


Section Report.

Context {env : Environment}.
Variables (db : DB) (start_date end_date n t : Z).



End Report.

(** ** The entry point *)

Section MainFurther.

Context {env : Environment}.
Variable from_params : list (string * option string) -> option DB.
Variable int : option string -> option Z.

(** X17. When [docopt] exits (help, version, or a command line that does
    not match the usage), [main] raises [SystemExit] having printed what
    [docopt] printed and nothing else.  When [docopt] returns the
    arguments, [main] opens the database and converts its four arguments
    before [run] prints anything: either the connection and the four
    conversions succeed, and [main] then does what [run] does on the
    converted values; or [main] raises having printed nothing and consulted
    nothing. *)
Theorem main_converts_before_printing :
  (forall printed,
      main from_params int (DocoptExit printed) world0 =
        ({| stdout := printed; detector_calls := []; clock_reads := 0 |},
         MainRaises SystemExit)) /\
  (forall args,
      (exists db start_date end_date n t,
          from_params (db_kwargs args) = Some db /\
          Timestamp (arg_start_date args) = Some start_date /\
          Timestamp (arg_end_date args) = Some end_date /\
          int (arg_n args) = Some n /\
          int (arg_t args) = Some t /\
          main from_params int (DocoptArgs args) world0 =
            (fst (run_io db start_date end_date n t world0),
             match snd (run_io db start_date end_date n t world0) with
             | Returns _ => MainReturns
             | Raises e => MainRaises (ScriptError e)
             end))
      \/
      (fst (main from_params int (DocoptArgs args) world0) = world0 /\
       exists e,
         e <> SystemExit /\
         snd (main from_params int (DocoptArgs args) world0) =
           MainRaises e)).
Proof.
  split; [reflexivity|]. intros args.
  assert (Hfail : forall e, e <> SystemExit ->
    fst (world0, MainRaises e) = world0 /\
    exists e0, e0 <> SystemExit /\
               snd (world0, MainRaises e) = MainRaises e0)
    by (intros e He; split; [reflexivity|now exists e]).
  unfold main.
  destruct (from_params (db_kwargs args)) as [db|];
    [|right; apply Hfail; discriminate].
  destruct (Timestamp (arg_start_date args)) as [start_date|];
    [|right; apply Hfail; discriminate].
  destruct (Timestamp (arg_end_date args)) as [end_date|];
    [|right; apply Hfail; discriminate].
  destruct (int (arg_n args)) as [n|]; [|right; apply Hfail; discriminate].
  destruct (int (arg_t args)) as [t|]; [|right; apply Hfail; discriminate].
  left. exists db, start_date, end_date, n, t.
  repeat (split; [reflexivity|]).
  destruct (run_io db start_date end_date n t world0) as [w [r|e]];
    reflexivity.
Qed.

End MainFurther.

(** ** The counter as a capped count *)

Section LoopCap.

Context {env : Environment}.
Variables (db : DB) (n : Z).

Lemma count_productive_capped revisions c w :
  forallb parses revisions = true ->
  c < n ->
  exists calls,
    count_productive db n revisions c w =
      (logged w calls,
       Returns (Z.min n (c + productive_edits_in db revisions))).
Proof.
  revert c w. induction revisions as [|r revisions IH]; intros c w Hp Hlt.
  - exists []. simpl. rewrite logged_nil. unfold ret. do 2 f_equal;
      unfold productive_edits_in; simpl; lia.
  - simpl in Hp. apply andb_true_iff in Hp as [Hr Hp].
    unfold parses in Hr.
    destruct (Timestamp (Some (rev_timestamp r))) as [ts|] eqn:Hts;
      [clear Hr | discriminate].
    rewrite count_productive_cons, productive_edits_in_cons.
    pose proof (productive_edits_in_nonneg db revisions) as Hpos.
    rewrite (rev_iteration_parsed db n c r ts w Hts).
    rewrite (productive_edit_parsed db r ts Hts).
    destruct (page_namespace r =? 0); cbv [andb].
    + destruct (check_row db r 15 (ts + 48 * 3600)).
      * destruct (IH c (logged w [call_for r ts]) Hp Hlt) as (calls & ->).
        rewrite logged_logged. eexists. do 2 f_equal; lia.
      * destruct (c + 1 >=? n) eqn:Hge.
        -- eexists. do 2 f_equal; lia.
        -- destruct (IH (c + 1) (logged w [call_for r ts]) Hp)
             as (calls & ->); [lia|].
           rewrite logged_logged. eexists. do 2 f_equal; lia.
    + destruct (IH c w Hp Hlt) as (calls & ->).
      eexists. do 2 f_equal; lia.
Qed.

(** X18. For a threshold of 1 or more, and revisions whose timestamps can
    all be built, the counter the loop returns is the number of productive
    edits capped at [n]. *)
Theorem counter_is_capped_count (revisions : list rev_row) (w : world) :
  1 <= n ->
  forallb parses revisions = true ->
  exists calls,
    count_productive db n revisions 0 w =
      (logged w calls,
       Returns (Z.min n (productive_edits_in db revisions))).
Proof.
  intros Hn Hp.
  destruct (count_productive_capped revisions 0 w Hp ltac:(lia))
    as (calls & H).
  exists calls. exact H.
Qed.

End LoopCap.

(** ** The further properties at concrete inputs *)

(** Three productive edits and a threshold of 5. *)
Lemma count_exact_below_threshold_witness :
  @count_productive (demo_env (inject_Z 300000)) three_edits 5
    [edit 1 "4600"; edit 2 "8200"; edit 3 "11800"] 0 world0 =
    (logged world0
       [call_for (edit 1 "4600") 4600; call_for (edit 2 "8200") 8200;
        call_for (edit 3 "11800") 11800],
     Returns 3).
Proof.
  exact (@count_exact_below_threshold (demo_env (inject_Z 300000))
           three_edits 5 [edit 1 "4600"; edit 2 "8200"; edit 3 "11800"]
           world0 eq_refl eq_refl).
Defined.

(** A talk-page edit whose timestamp cannot be read, after one content
    edit. *)
Lemma unparsable_revision_raises_witness :
  @count_productive (demo_env (inject_Z 300000)) three_edits 2
    [edit 1 "4600"; talk_edit 2 "soon"; edit 3 "11800"] 0 world0 =
    (logged world0 [call_for (edit 1 "4600") 4600], Raises TimestampError).
Proof.
  exact (@unparsable_revision_raises (demo_env (inject_Z 300000))
           three_edits 2 [edit 1 "4600"] (talk_edit 2 "soon")
           [edit 3 "11800"] world0 eq_refl eq_refl eq_refl).
Defined.

(** A threshold of 0: the scan goes on to the first content edit. *)
Lemma loop_stops_at_first_productive_witness :
  @count_productive (demo_env (inject_Z 300000)) three_edits 0
    [talk_edit 1 "4600"; edit 2 "8200"; edit 3 "11800"] 0 world0 =
    (logged world0 [call_for (edit 2 "8200") 8200], Returns 1).
Proof.
  exact (@loop_stops_at_first_productive (demo_env (inject_Z 300000))
           three_edits 0 [talk_edit 1 "4600"] (edit 2 "8200")
           [edit 3 "11800"] world0 ltac:(lia) eq_refl eq_refl eq_refl).
Defined.

(** Productive with a threshold of 3, hence with a threshold of 2. *)
Lemma lower_threshold_keeps_productive_witness :
  exists line line' w1 w2,
    @user_iteration (demo_env (inject_Z 300000)) three_edits 3 1 alice world0
      = (w1, Returns tt) /\
    stdout w1 = [line] /\
    @user_iteration (demo_env (inject_Z 300000)) three_edits 2 1 alice world0
      = (w2, Returns tt) /\
    stdout w2 = [line'] /\
    (field 3 line = Some "True" -> field 3 line' = Some "True").
Proof.
  exact (@lower_threshold_keeps_productive (demo_env (inject_Z 300000))
           three_edits 1 3 2 alice world0 eq_refl ltac:(lia)).
Defined.

(** Only talk-page edits and a threshold of 0. *)
Lemma nonpositive_threshold_all_productive_witness :
  exists line w',
    @user_iteration (demo_env (inject_Z 300000)) talk_only 0 1 alice world0
      = (w', Returns tt) /\
    stdout w' = [line] /\
    field 3 line = Some "True".
Proof.
  exact (@nonpositive_threshold_all_productive (demo_env (inject_Z 300000))
           talk_only 1 0 alice world0 eq_refl ltac:(lia)).
Defined.


(** A window of one day widened to two days. *)
Lemma wider_window_keeps_productive_witness :
  exists line line' w1 w2,
    @user_iteration (demo_env (inject_Z 300000)) three_edits 2 1 alice world0
      = (w1, Returns tt) /\
    stdout w1 = [line] /\
    @user_iteration (demo_env (inject_Z 300000)) three_edits 2 2 alice world0
      = (w2, Returns tt) /\
    stdout w2 = [line'] /\
    (field 3 line = Some "True" -> field 3 line' = Some "True").
Proof.
  exact (@wider_window_keeps_productive (demo_env (inject_Z 300000))
           three_edits 2 1 2 alice world0 1000
           eq_refl eq_refl eq_refl eq_refl eq_refl ltac:(lia)).
Defined.

(** A name that is not UTF-8: the detector is consulted for the user's edit
    and no row is printed. *)
Lemma undecodable_name_raises_witness :
  exists calls c,
    @count_productive (demo_env (inject_Z 300000)) bad_name 1
      [edit 1 "4600"] 0 world0 = (logged world0 calls, Returns c) /\
    @user_iteration (demo_env (inject_Z 300000)) bad_name 1 1 alice_latin1
      world0 = (logged world0 calls, Raises UnicodeDecodeError).
Proof.
  exact (@undecodable_name_raises (demo_env (inject_Z 300000)) bad_name 1 1
           alice_latin1 world0 1000 eq_refl eq_refl eq_refl).
Defined.

(** Two users whose names differ by a tab against backslash, t: they share
    a row, and an identifier. *)
Lemma row_identifies_user_witness : user_id alice = user_id alice_backslash.
Proof.
  refine (row_identifies_user alice alice_backslash
            (row_line alice "1000" "True" "False") _ _);
    exists "1000", "True", "False"; auto.
Defined.

(** Three productive edits and a threshold of 2: the counter is 2. *)
Lemma counter_is_capped_count_witness :
  exists calls,
    @count_productive (demo_env (inject_Z 300000)) three_edits 2
      [edit 1 "4600"; edit 2 "8200"; edit 3 "11800"] 0 world0 =
      (logged world0 calls, Returns 2).
Proof.
  exact (@counter_is_capped_count (demo_env (inject_Z 300000)) three_edits 2
           [edit 1 "4600"; edit 2 "8200"; edit 3 "11800"] world0
           ltac:(lia) eq_refl).
Defined.


